(** * Uniformity score of a price window (processors/uniformity_filter.py)

    A shallow embedding of [UniformityFilter.calculate] and
    [UniformityFilter.get_score_category].

    The Python text is duck-typed over its numbers, so it is embedded once,
    over an interface [PyNumber] of the numeric operations it uses, and read
    at two instances:
    - [pynum]: Python's own numbers, an [int] (unbounded, [Z]) or a [float]
      (IEEE 754 binary64, the executable [spec_float] of the Standard
      Library, every operation correctly rounded to nearest-even);
    - [R]: exact real arithmetic, the reading in which the specification
      states its algebraic properties.
    Exceptions are explicit: every operation that can raise returns a
    [result]. *)

From Stdlib Require Import ZArith List Bool Ascii String Lia.
From Stdlib Require Import Floats.SpecFloat.
From Stdlib Require Import Reals Lra.
From Stdlib Require Import Sorting.Permutation Sorting.Sorted.
Import ListNotations.

Local Open Scope Z_scope.

(** ** Exceptions *)

Inductive exn : Type :=
| IndexError
| ZeroDivisionError
| ValueError
| OverflowError.

Inductive result (A : Type) : Type :=
| Ok (a : A)
| Raise (e : exn).

Arguments Ok {A} a.
Arguments Raise {A} e.

Definition bind {A B : Type} (c : result A) (k : A -> result B) : result B :=
  match c with
  | Ok a => k a
  | Raise e => Raise e
  end.

Declare Scope py_scope.
Delimit Scope py_scope with py.
Notation "x <- c ;; k" := (bind c (fun x => k))
  (at level 61, c at next level, right associativity) : py_scope.
Notation "' pat <- c ;; k" := (bind c (fun x => match x with pat => k end))
  (at level 61, pat pattern, c at next level, right associativity) : py_scope.
Local Open Scope py_scope.

Definition raises {A : Type} (c : result A) : bool :=
  match c with
  | Ok _ => false
  | Raise _ => true
  end.

Fixpoint mapM {A B : Type} (f : A -> result B) (l : list A) : result (list B) :=
  match l with
  | [] => Ok []
  | a :: l' => b <- f a ;; bs <- mapM f l' ;; Ok (b :: bs)
  end.

Fixpoint foldM {A S : Type} (f : S -> A -> result S) (l : list A) (s : S)
  : result S :=
  match l with
  | [] => Ok s
  | a :: l' => s' <- f s a ;; foldM f l' s'
  end.

(** ** Lists the way Python indexes them *)

Definition len {A : Type} (l : list A) : Z := Z.of_nat (List.length l).

(** [l[i]]: a negative index counts from the end; out of range raises. *)
Definition py_index {A : Type} (l : list A) (i : Z) : result A :=
  let j := if i <? 0 then i + len l else i in
  if (0 <=? j) && (j <? len l) then
    match nth_error l (Z.to_nat j) with
    | Some a => Ok a
    | None => Raise IndexError
    end
  else Raise IndexError.

(** [l[start:]]: a negative start counts from the end and is clipped to the
    list, a start past the end gives the empty list. *)
Definition slice_from {A : Type} (l : list A) (start : Z) : list A :=
  let s := if start <? 0 then Z.max 0 (start + len l) else Z.min start (len l) in
  skipn (Z.to_nat s) l.

(** [range(n)] *)
Definition range (n : Z) : list Z := map Z.of_nat (seq 0 (Z.to_nat n)).

(** ** The numeric interface *)

Class PyNumber (num : Type) : Type := {
  of_int : Z -> num;                       (* an int used as a number *)
  py_add : num -> num -> result num;       (* x + y *)
  py_sub : num -> num -> result num;       (* x - y *)
  py_mul : num -> num -> result num;       (* x * y *)
  py_truediv : num -> num -> result num;   (* x / y *)
  py_abs : num -> num;                     (* abs(x) *)
  math_sqrt : num -> result num;           (* math.sqrt(x) *)
  py_round1 : num -> num;                  (* round(x, 1) *)
  py_le : num -> num -> bool;              (* x <= y *)
  py_lt : num -> num -> bool               (* x < y *)
}.

Section Generic.
Context {num : Type} `{PyNumber num}.

(** [min(a, b)] and [max(a, b)]: the first argument is kept unless the
    second is strictly smaller (larger). *)
Definition py_min (a b : num) : num := if py_lt b a then b else a.
Definition py_max (a b : num) : num := if py_lt a b then b else a.

(** Line 22: [((price - base_price) / base_price) * 100]. *)
Definition pct_change (base_price price : num) : result num :=
  d <- py_sub price base_price ;;
  q <- py_truediv d base_price ;;
  py_mul q (of_int 100).

(** Lines 20-23. *)
Definition cumulative_pcts (prices_period : list num) (base_price : num)
  : result (list num) :=
  mapM (pct_change base_price) prices_period.

(** Line 31: [[i * daily_uniform_gain for i in range(period)]]. *)
Definition ideal_line (daily_uniform_gain : num) (period : Z)
  : result (list num) :=
  mapM (fun i => py_mul (of_int i) daily_uniform_gain) (range period).

(** Lines 37-39, the body of the loop, on the pair
    [(total_deviation, max_possible_deviation)]. *)
Definition deviation_step (cumulative ideal : list num) (total_gain : num)
           (period : Z) (acc : num * num) (i : Z) : result (num * num) :=
  let '(total_deviation, max_possible_deviation) := acc in
  c <- py_index cumulative i ;;
  l <- py_index ideal i ;;
  d <- py_sub c l ;;
  let deviation := py_abs d in
  total_deviation' <- py_add total_deviation deviation ;;
  max_possible_deviation' <-
    py_add max_possible_deviation
           (if i <? period - 1 then total_gain else of_int 0) ;;
  Ok (total_deviation', max_possible_deviation').

(** Lines 33-39. *)
Definition deviation_sums (cumulative ideal : list num) (total_gain : num)
           (period : Z) : result (num * num) :=
  foldM (deviation_step cumulative ideal total_gain period)
        (range period) (of_int 0, of_int 0).

(** Lines 41-44. *)
Definition normalized_deviation (total_deviation max_possible_deviation : num)
  : result num :=
  if py_lt (of_int 0) max_possible_deviation
  then py_truediv total_deviation max_possible_deviation
  else Ok (of_int 0).

(** Lines 46-47. *)
Definition uniformity_score (normalized : num) : result num :=
  s <- math_sqrt (py_min normalized (of_int 1)) ;;
  t <- py_sub (of_int 1) s ;;
  raw_score <- py_mul (of_int 100) t ;;
  Ok (py_min (of_int 100) (py_max (of_int 0) (py_round1 raw_score))).

(** Lines 30-49: what is computed once the three guards have passed. *)
Definition score_window (cumulative : list num) (total_gain : num)
           (period : Z) : result (num * num) :=
  daily_uniform_gain <- py_truediv total_gain (of_int (period - 1)) ;;
  ideal <- ideal_line daily_uniform_gain period ;;
  '(total_deviation, max_possible_deviation) <-
    deviation_sums cumulative ideal total_gain period ;;
  normalized <- normalized_deviation total_deviation max_possible_deviation ;;
  score <- uniformity_score normalized ;;
  Ok (score, py_round1 total_gain).

(** [UniformityFilter.calculate(prices, period)]. *)
Definition calculate (prices : list num) (period : Z) : result (num * num) :=
  if len prices <? period then Ok (of_int 0, of_int 0) else
  let prices_period := slice_from prices (- period) in
  base_price <- py_index prices_period 0 ;;
  if py_le base_price (of_int 0) then Ok (of_int 0, of_int 0) else
  cumulative <- cumulative_pcts prices_period base_price ;;
  total_gain <- py_index cumulative (-1) ;;
  if py_le total_gain (of_int 0) then Ok (of_int 0, py_round1 total_gain) else
  score_window cumulative total_gain period.

(** [UniformityFilter.get_score_category(score, gain)];
    [score >= n] is [n <= score]. *)
Definition get_score_category (score gain : num) : string :=
  if py_le gain (of_int 0) then "Negative Return 📉"%string
  else if py_le (of_int 90) score then "Perfect 🏆"
  else if py_le (of_int 75) score then "Excellent 📈"
  else if py_le (of_int 60) score then "Good 📊"
  else if py_le (of_int 45) score then "Fair 📉"
  else if py_le (of_int 20) score then "Poor ⚠️"
  else "Bad ❌".

End Generic.

(** ** Python's numbers: [int] and binary64 [float] *)

Module Py.

Definition prec : Z := 53.
Definition emax : Z := 1024.

Definition float : Type := spec_float.

Inductive pynum : Type :=
| PyInt (z : Z)
| PyFloat (f : float).

Definition fadd : float -> float -> float := SFadd prec emax.
Definition fsub : float -> float -> float := SFsub prec emax.
Definition fmul : float -> float -> float := SFmul prec emax.
Definition fdiv : float -> float -> float := SFdiv prec emax.
Definition fsqrt : float -> float := SFsqrt prec emax.

Definition fzero : float := S754_zero false.

Definition is_nan (f : float) : bool :=
  match f with S754_nan => true | _ => false end.

Definition is_inf (f : float) : bool :=
  match f with S754_infinity _ => true | _ => false end.

Definition is_finite (f : float) : bool :=
  match f with S754_zero _ | S754_finite _ _ _ => true | _ => false end.

(** The float nearest to an integer (ties to even), without its range
    check. *)
Definition Zfloat (z : Z) : float := binary_normalize prec emax z 0 false.

(** An integer as an unrounded mantissa with exponent 0: the operand of a
    correctly rounded quotient of integers. *)
Definition Zexact (z : Z) : float :=
  match z with
  | Z0 => S754_zero false
  | Zpos p => S754_finite false p 0
  | Zneg p => S754_finite true p 0
  end.

(** Conversion of an [int] operand to [float]: OverflowError from
    [2^1024 - 2^970] on, where rounding to nearest reaches [2^1024]. *)
Definition float_of_int (z : Z) : result float :=
  if Z.abs z <? 2 ^ 1024 - 2 ^ 970 then Ok (Zfloat z)
  else Raise OverflowError.

Definition to_float (x : pynum) : result float :=
  match x with
  | PyInt z => float_of_int z
  | PyFloat f => Ok f
  end.

(** [+], [-], [*]: exact on two ints, otherwise both operands are taken
    to [float]. *)
Definition arith (zop : Z -> Z -> Z) (fop : float -> float -> float)
           (x y : pynum) : result pynum :=
  match x, y with
  | PyInt a, PyInt b => Ok (PyInt (zop a b))
  | _, _ => f <- to_float x ;; g <- to_float y ;; Ok (PyFloat (fop f g))
  end.

(** [/]: the correctly rounded quotient of two ints (OverflowError when it
    is out of range), the float quotient otherwise; a zero divisor raises
    ZeroDivisionError. *)
Definition truediv (x y : pynum) : result pynum :=
  match x, y with
  | PyInt a, PyInt b =>
      if b =? 0 then Raise ZeroDivisionError
      else let q := fdiv (Zexact a) (Zexact b) in
           if is_inf q then Raise OverflowError else Ok (PyFloat q)
  | _, _ =>
      f <- to_float x ;; g <- to_float y ;;
      if SFeqb g fzero then Raise ZeroDivisionError
      else Ok (PyFloat (fdiv f g))
  end.

Definition abs (x : pynum) : pynum :=
  match x with
  | PyInt z => PyInt (Z.abs z)
  | PyFloat f => PyFloat (SFabs f)
  end.

(** [math.sqrt]: the argument is taken to [float]; a NaN result of a
    non-NaN argument is a domain error. *)
Definition sqrt (x : pynum) : result pynum :=
  f <- to_float x ;;
  let r := fsqrt f in
  if is_nan r && negb (is_nan f) then Raise ValueError
  else Ok (PyFloat r).

(** Nearest integer to [n / d], ties to even, for [0 <= n] and [0 < d]. *)
Definition div_half_even (n d : Z) : Z :=
  let q := n / d in
  let r := n mod d in
  match 2 * r ?= d with
  | Lt => q
  | Gt => q + 1
  | Eq => if Z.even q then q else q + 1
  end.

(** [round(x, 1)] on a float: the exact binary value is rounded half-even
    to one decimal and the float nearest to that decimal is returned; a
    float that is an integer, an infinity or a NaN rounds to itself. *)
Definition fround1 (f : float) : float :=
  match f with
  | S754_finite s m e =>
      if 0 <=? e then f
      else
        let n := div_half_even (10 * Zpos m) (2 ^ (- e)) in
        if n =? 0 then S754_zero s
        else fdiv (Zexact (if s then - n else n)) (Zexact 10)
  | _ => f
  end.

(** [round(x, 1)]: an int rounds to itself. *)
Definition round1 (x : pynum) : pynum :=
  match x with
  | PyInt z => PyInt z
  | PyFloat f => PyFloat (fround1 f)
  end.

(** Comparison of a float with an int is exact. *)
Definition compare_float_int (f : float) (z : Z) : option comparison :=
  match f with
  | S754_nan => None
  | S754_infinity s => Some (if s then Lt else Gt)
  | S754_zero _ => Some (0 ?= z)
  | S754_finite s m e =>
      Some (if 0 <=? e then cond_Zopp s (Zpos m * 2 ^ e) ?= z
            else cond_Zopp s (Zpos m) ?= z * 2 ^ (- e))
  end.

Definition compare (x y : pynum) : option comparison :=
  match x, y with
  | PyInt a, PyInt b => Some (a ?= b)
  | PyFloat f, PyFloat g => SFcompare f g
  | PyFloat f, PyInt b => compare_float_int f b
  | PyInt a, PyFloat g => option_map CompOpp (compare_float_int g a)
  end.

Definition le (x y : pynum) : bool :=
  match compare x y with Some (Lt | Eq) => true | _ => false end.

Definition lt (x y : pynum) : bool :=
  match compare x y with Some Lt => true | _ => false end.

(** [==] on numbers and on pairs of numbers. *)
Definition eqb (x y : pynum) : bool :=
  match compare x y with Some Eq => true | _ => false end.

Definition pair_eqb (p q : pynum * pynum) : bool :=
  eqb (fst p) (fst q) && eqb (snd p) (snd q).

#[global] Instance number : PyNumber pynum := {
  of_int := PyInt;
  py_add := arith Z.add fadd;
  py_sub := arith Z.sub fsub;
  py_mul := arith Z.mul fmul;
  py_truediv := truediv;
  py_abs := abs;
  math_sqrt := sqrt;
  py_round1 := round1;
  py_le := le;
  py_lt := lt
}.

(** A float literal with decimals, [n / 10^k] rounded once. *)
Definition decimal (n : Z) (k : Z) : float := fdiv (Zexact n) (Zexact (10 ^ k)).

(** A price list, typed [List[float]]. *)
Definition floats (l : list float) : list pynum := map PyFloat l.

(** The floats of a list of integers. *)
Definition of_ints (l : list Z) : list float := map Zfloat l.

End Py.

(** ** Exact real arithmetic *)

Module Exact.

Local Open Scope R_scope.

Definition truediv (x y : R) : result R :=
  if Req_dec_T y 0 then Raise ZeroDivisionError else Ok (x / y).

Definition sqrt (x : R) : result R :=
  if Rlt_dec x 0 then Raise ValueError else Ok (R_sqrt.sqrt x).

(** Nearest integer, ties to even. *)
Definition round_half_even (x : R) : Z :=
  let n := Int_part x in
  let f := frac_part x in
  if Rlt_dec f (1 / 2) then n
  else if Rlt_dec (1 / 2) f then (n + 1)%Z
  else if Z.even n then n else (n + 1)%Z.

(** [round(x, 1)] *)
Definition round1 (x : R) : R := IZR (round_half_even (x * 10)) / 10.

Definition le (x y : R) : bool := if Rle_dec x y then true else false.
Definition lt (x y : R) : bool := if Rlt_dec x y then true else false.

#[global] Instance number : PyNumber R := {
  of_int := IZR;
  py_add := fun x y => Ok (x + y);
  py_sub := fun x y => Ok (x - y);
  py_mul := fun x y => Ok (x * y);
  py_truediv := truediv;
  py_abs := Rabs;
  math_sqrt := sqrt;
  py_round1 := round1;
  py_le := le;
  py_lt := lt
}.

End Exact.

(** ** Definitions used to state the properties *)

Module Py_domain.
Import Py.

(** The percentage change of line 22 on two floats, when nothing is
    raised. *)
Definition fpct (base_price price : float) : float :=
  fmul (fdiv (fsub price base_price) base_price) (Zfloat 100).

(** [sys.maxsize], the largest length a list can have. *)
Definition sys_maxsize : Z := 2 ^ 63 - 1.

(** The least exponent of a binary64 mantissa, [-1074]. *)
Definition emin : Z := SpecFloat.emin prec emax.

(** A float that is not negative: a zero, a positive float, [+inf] or a
    NaN. *)
Definition nonneg (f : float) : bool :=
  match f with
  | S754_finite true _ _ | S754_infinity true => false
  | _ => true
  end.

(** A strictly positive float, with an exponent that rounding can
    produce. *)
Definition pos (f : float) : Prop :=
  match f with
  | S754_finite false _ e => emin <= e
  | S754_infinity false => True
  | _ => False
  end.

(** What [total_deviation] can be: the int [0] it starts from, or a
    float that is not negative. *)
Definition nonneg_num (x : pynum) : Prop :=
  x = PyInt 0 \/ exists f, x = PyFloat f /\ nonneg f = true.

(** What [max_possible_deviation] can be after [k] rounds of the loop on
    a total gain [tg]: still the int [0] (before the first round, or when
    the window has one price), or a float, positive when [tg] is. *)
Definition scale_state (tg : float) (period : Z) (k : nat) (mpd : pynum) : Prop :=
  (mpd = PyInt 0 /\ (k = 0%nat \/ period <= 1)) \/
  (exists f, mpd = PyFloat f /\ (pos tg -> pos f)).

End Py_domain.

(** The table of the specification for [get_score_category]: thresholds
    in the order they are tried, with the labels as the specification
    names them. *)
Definition category_table : list (Z * string) :=
  [ (90, "Perfect"); (75, "Excellent"); (60, "Good"); (45, "Fair");
    (20, "Poor") ]%string.

Definition seven_labels : list string :=
  [ "Negative Return"; "Perfect"; "Excellent"; "Good"; "Fair"; "Poor";
    "Bad" ]%string.

Section Category_spec.
Context {num : Type} `{PyNumber num}.

Fixpoint first_match (score : num) (table : list (Z * string)) : string :=
  match table with
  | [] => "Bad"%string
  | (threshold, name) :: rest =>
      if py_le (of_int threshold) score then name
      else first_match score rest
  end.

Definition category_by_precedence (score gain : num) : string :=
  if py_le gain (of_int 0) then "Negative Return"%string
  else first_match score category_table.
End Category_spec.

(** The text of a category before its last space, that is without the
    pictogram that ends it. *)
Fixpoint drop_to_space (l : list Ascii.ascii) : list Ascii.ascii :=
  match l with
  | [] => []
  | c :: l' => if Ascii.eqb c " "%char then l' else drop_to_space l'
  end.

Definition label (s : string) : string :=
  string_of_list_ascii (rev (drop_to_space (rev (list_ascii_of_string s)))).

(** Scenario 1 of the specification: thirty prices from 100 in steps of 2. *)
Definition scenario_linear : list Z :=
  [ 100; 102; 104; 106; 108; 110; 112; 114; 116; 118;
    120; 122; 124; 126; 128; 130; 132; 134; 136; 138;
    140; 142; 144; 146; 148; 150; 152; 154; 156; 158 ].

(** Three prices that double at each step: a constant 100 percent. *)
Definition scenario_doubling : list Z := [ 100; 200; 400 ].

(** Two finite positive prices, 2^-1000 and 2^1000: the percentage change
    from the first to the second is beyond the largest binary64 float. *)
Definition scenario_overflow : list Py.float :=
  [ S754_finite false 4503599627370496 (-1052);
    S754_finite false 4503599627370496 948 ].

(** For each index [i], whether [cumulative[i] == ideal[i]]. *)
Definition equal_at (cumulative ideal : list Py.pynum) : list bool :=
  map (fun ci => Py.eqb (fst ci) (snd ci)) (combine cumulative ideal).

(** A window of [n] prices that starts at [b] and rises by [delta] at each
    step. *)
Definition linear_window (b delta : R) (n : Z) : list R :=
  map (fun i => (b + IZR i * delta)%R) (range n).

(** * The gain filter and the callers of [calculate] *)

(** ** Dictionaries with string keys, in insertion order *)

Definition dict (V : Type) : Type := list (string * V).

(** The value bound to a key, if any. *)
Fixpoint dict_lookup {V : Type} (d : dict V) (k : string) : option V :=
  match d with
  | [] => None
  | (k', v) :: d' => if String.eqb k k' then Some v else dict_lookup d' k
  end.

(** [d.get(k, default)] *)
Definition dict_get {V : Type} (d : dict V) (k : string) (default : V) : V :=
  match dict_lookup d k with
  | Some v => v
  | None => default
  end.

(** [d[k] = v]: a bound key keeps its place, a new key goes last. *)
Fixpoint dict_set {V : Type} (d : dict V) (k : string) (v : V) : dict V :=
  match d with
  | [] => [(k, v)]
  | (k', v') :: d' =>
      if String.eqb k k' then (k', v) :: d' else (k', v') :: dict_set d' k v
  end.

(** A value of the dictionaries the gain filter reads: a number, or a string
    or [None], which the JSON of the data provider can hold in its place. *)
Inductive pyval (num : Type) : Type :=
| VNum (x : num)
| VStr (s : string)
| VNone.

Arguments VNum {num} x.
Arguments VStr {num} s.
Arguments VNone {num}.

(** ** Two more operations on numbers *)

Class PyNumber2 (num : Type) : Type := {
  py_round2 : num -> num;                  (* round(x, 2) *)
  py_eq : num -> num -> bool               (* x == y *)
}.

Module Py2.
Import Py.

(** [round(x, 2)] on a float, as [fround1] with two decimals. *)
Definition fround2 (f : float) : float :=
  match f with
  | S754_finite s m e =>
      if 0 <=? e then f
      else
        let n := div_half_even (100 * Zpos m) (2 ^ (- e)) in
        if n =? 0 then S754_zero s
        else fdiv (Zexact (if s then - n else n)) (Zexact 100)
  | _ => f
  end.

Definition round2 (x : pynum) : pynum :=
  match x with
  | PyInt z => PyInt z
  | PyFloat f => PyFloat (fround2 f)
  end.

#[global] Instance number2 : PyNumber2 pynum := {
  py_round2 := round2;
  py_eq := eqb
}.

End Py2.

Module Exact2.

Local Open Scope R_scope.

Definition round2 (x : R) : R := IZR (Exact.round_half_even (x * 100)) / 100.

Definition eq (x y : R) : bool := if Req_dec_T x y then true else false.

#[global] Instance number2 : PyNumber2 R := {
  py_round2 := round2;
  py_eq := eq
}.

End Exact2.

(** ** processors/gain_filter.py *)

Section Gain_filter.
Context {num : Type} `{PyNumber num} `{PyNumber2 num}.

(** [v == 0]: a string or [None] is not equal to a number. *)
Definition val_is_zero (v : pyval num) : bool :=
  match v with
  | VNum x => py_eq x (of_int 0)
  | _ => false
  end.

(** [v > n] and [v >= n] for an int [n]; [None] stands for the TypeError
    that comparing a string or [None] with a number raises. *)
Definition val_gt (v : pyval num) (n : Z) : option bool :=
  match v with
  | VNum x => Some (py_lt (of_int n) x)
  | _ => None
  end.

Definition val_ge (v : pyval num) (n : Z) : option bool :=
  match v with
  | VNum x => Some (py_le (of_int n) x)
  | _ => None
  end.

(** [GainFilter.check_volume(coin_data, min_volume)]; an exception of the
    comparison is caught on line 14 and gives [False]. *)
Definition check_volume (coin_data : dict (pyval num)) (min_volume : Z) : bool :=
  let volume_24h := dict_get coin_data "volume_24h" (VNum (of_int 0)) in
  match val_ge volume_24h min_volume with
  | Some b => b
  | None => false
  end.

(** [GainFilter.check_gain_requirements(gains)]; [and] stops at a first
    operand that is false, an exception of a comparison is caught on line
    39 (its message goes to the standard output) and control reaches
    line 42. *)
Definition check_gain_requirements (gains : dict (pyval num))
  : bool * option (dict (pyval num)) :=
  let gain_7d := dict_get gains "7d" (VNum (of_int 0)) in
  let gain_30d := dict_get gains "30d" (VNum (of_int 0)) in
  if val_is_zero gain_7d || val_is_zero gain_30d then (false, None)
  else
    match val_gt gain_7d 7 with
    | None => (false, None)
    | Some false => (false, None)
    | Some true =>
        match val_gt gain_30d 30 with
        | None => (false, None)
        | Some false => (false, None)
        | Some true => (true, Some [("7d", gain_7d); ("30d", gain_30d)]%string)
        end
    end.

(** [GainFilter.calculate_gains_from_prices(prices)]; the expression of
    lines 59 and 66 is the one of [pct_change]. *)
Definition calculate_gains_from_prices (prices : list num)
  : result (option (dict num)) :=
  if len prices <? 30 then Ok None else
  base_price <- py_index prices 0 ;;
  let gains : dict num := [] in
  gains <-
    (if 7 <=? len prices then
       p <- py_index prices 6 ;;
       gain_7d <- pct_change base_price p ;;
       Ok (dict_set gains "7d" (py_round2 gain_7d))
     else Ok (dict_set gains "7d" (of_int 0))) ;;
  gains <-
    (if 30 <=? len prices then
       p <- py_index prices 29 ;;
       gain_30d <- pct_change base_price p ;;
       Ok (dict_set gains "30d" (py_round2 gain_30d))
     else Ok (dict_set gains "30d" (of_int 0))) ;;
  Ok (Some gains).

(** main.py, line 219: [gains['7d'] > 7 and gains['30d'] > 30]; [None]
    stands for the KeyError of a missing key or the TypeError of a value
    that is not a number. *)
Definition inline_gain_test (gains : dict (pyval num)) : option bool :=
  match dict_lookup gains "7d" with
  | None => None
  | Some gain_7d =>
      match val_gt gain_7d 7 with
      | None => None
      | Some false => Some false
      | Some true =>
          match dict_lookup gains "30d" with
          | None => None
          | Some gain_30d => val_gt gain_30d 30
          end
      end
  end.

End Gain_filter.

(** ** main.py, steps 7 to 9 of [run_scanner] *)

Module Scanner.
Import Py.

(** A coin of the scan.  The entries ['uniformity_score'] and
    ['total_gain'] are set together (lines 317-318 and 342-343) and are one
    optional pair here; [other] holds the entries these steps do not read
    (name, slug, gains, volumes, ...). *)
Record coin (Other : Type) : Type := {
  symbol : string;
  cg_id : string;
  scored : option (pynum * pynum);
  other : Other
}.

Arguments symbol {Other} c.
Arguments cg_id {Other} c.
Arguments scored {Other} c.
Arguments other {Other} c.

Section Steps.
Context {Other : Type}.

(** Lines 332-352, for one coin that is not cached: [prices] is what
    [gecko.get_market_chart(coin['cg_id'], 30)] returned, [None] when it
    gave no data.  The calls to the rate limiter, the log and the write to
    the cache are left out: they do not touch the coin. *)
Definition score_coin (prices : option (list float)) (c : coin Other)
  : result (coin Other) :=
  match prices with
  | None => Ok c
  | Some prices =>
      if negb (len prices =? 0) && (30 <=? len prices) then
        '(score, gain) <- calculate (floats prices) 30 ;;
        Ok {| symbol := symbol c; cg_id := cg_id c;
              scored := Some (score, gain); other := other c |}
      else Ok c
  end.

(** ['uniformity_score' in c] *)
Definition has_score (c : coin Other) : bool :=
  match scored c with
  | Some _ => true
  | None => false
  end.

(** Line 355. *)
Definition all_processed (cached_coins uncached_coins : list (coin Other))
  : list (coin Other) :=
  cached_coins ++ filter has_score uncached_coins.

(** The test of line 365. *)
Definition passes (uniformity_min_score : Z) (c : coin Other) : bool :=
  match scored c with
  | Some (score, gain) =>
      py_le (of_int uniformity_min_score) score && py_lt (of_int 0) gain
  | None => false
  end.

(** Lines 362-369. *)
Definition uniformity_passed (uniformity_min_score : Z)
           (processed : list (coin Other)) : list (coin Other) :=
  filter (passes uniformity_min_score) processed.

(** [x['uniformity_score'] < y['uniformity_score']], on coins that have a
    score, as all coins that passed line 365 do. *)
Definition score_lt (c d : coin Other) : bool :=
  match scored c, scored d with
  | Some (s, _), Some (t, _) => lt s t
  | _, _ => false
  end.

(** Lines 374-376, [sorted(..., key=score, reverse=True)]: the sort is
    stable, so a coin goes after the coins with a larger score and before
    the later coins whose score is not larger.  On scores that are numbers
    other than a NaN this determines the result. *)
Fixpoint insert_by_score (c : coin Other) (l : list (coin Other))
  : list (coin Other) :=
  match l with
  | [] => [c]
  | d :: l' => if score_lt c d then d :: insert_by_score c l' else c :: l
  end.

Definition final_results (passed : list (coin Other)) : list (coin Other) :=
  fold_right insert_by_score [] passed.

End Steps.

(** The labels of a coin that is "Fair" or better. *)
Definition fair_or_better : list string :=
  [ "Perfect"; "Excellent"; "Good"; "Fair" ]%string.

(** The default of [settings.uniformity_min_score]. *)
Definition default_min_score : Z := 45.

End Scanner.

(** * Properties *)

(** ** Indexing and slicing *)

Lemma len_map {A B : Type} (f : A -> B) (l : list A) : len (map f l) = len l.
Proof. unfold len. now rewrite length_map. Qed.

Lemma len_slice_from {A : Type} (l : list A) (period : Z) :
  0 < period -> period <= len l -> len (slice_from l (- period)) = period.
Proof.
  intros Hpos Hle. unfold slice_from.
  replace (- period <? 0) with true by (symmetry; apply Z.ltb_lt; lia).
  unfold len in *. rewrite length_skipn. lia.
Qed.

Lemma py_index_slice_head {A : Type} (l : list A) (period : Z) :
  0 < period -> period <= len l ->
  py_index (slice_from l (- period)) 0 = py_index l (- period).
Proof.
  intros Hpos Hle. unfold py_index.
  rewrite (len_slice_from l period Hpos Hle).
  replace (- period <? 0) with true by (symmetry; apply Z.ltb_lt; lia).
  replace (0 <? 0) with false by reflexivity.
  replace (0 <=? 0) with true by reflexivity.
  replace (0 <? period) with true by (symmetry; apply Z.ltb_lt; lia).
  replace (0 <=? - period + len l) with true by (symmetry; apply Z.leb_le; lia).
  replace (- period + len l <? len l) with true by (symmetry; apply Z.ltb_lt; lia).
  simpl andb. cbv iota.
  unfold slice_from.
  replace (- period <? 0) with true by (symmetry; apply Z.ltb_lt; lia).
  rewrite nth_error_skipn.
  replace (Z.to_nat (Z.max 0 (- period + len l)) + Z.to_nat 0)%nat
    with (Z.to_nat (- period + len l)) by lia.
  reflexivity.
Qed.

Lemma slice_from_map {A B : Type} (f : A -> B) (l : list A) (start : Z) :
  slice_from (map f l) start = map f (slice_from l start).
Proof. unfold slice_from. rewrite len_map. now rewrite skipn_map. Qed.

Lemma py_index_map {A B : Type} (f : A -> B) (l : list A) (i : Z) :
  py_index (map f l) i =
  match py_index l i with Ok a => Ok (f a) | Raise e => Raise e end.
Proof.
  unfold py_index. rewrite len_map.
  destruct ((0 <=? (if i <? 0 then i + len l else i)) &&
            ((if i <? 0 then i + len l else i) <? len l)); [ | reflexivity ].
  rewrite nth_error_map.
  now destruct (nth_error l _).
Qed.

(** ** The guards (generic in the numbers) *)

Section Guards.
Context {num : Type} `{PyNumber num}.

Lemma calculate_short (prices : list num) (period : Z) :
  len prices < period -> calculate prices period = Ok (of_int 0, of_int 0).
Proof.
  intros Hlt. unfold calculate.
  now replace (len prices <? period) with true by (symmetry; apply Z.ltb_lt; lia).
Qed.

Lemma calculate_unfold (prices : list num) (period : Z) (b : num) :
  0 < period -> period <= len prices ->
  py_index prices (- period) = Ok b ->
  calculate prices period =
  if py_le b (of_int 0) then Ok (of_int 0, of_int 0) else
  cumulative <- cumulative_pcts (slice_from prices (- period)) b ;;
  total_gain <- py_index cumulative (-1) ;;
  if py_le total_gain (of_int 0) then Ok (of_int 0, py_round1 total_gain) else
  score_window cumulative total_gain period.
Proof.
  intros Hpos Hle Hb. unfold calculate.
  replace (len prices <? period) with false by (symmetry; apply Z.ltb_ge; lia).
  rewrite (py_index_slice_head prices period Hpos Hle), Hb. reflexivity.
Qed.

Lemma calculate_bad_base (prices : list num) (period : Z) (b : num) :
  0 < period -> period <= len prices ->
  py_index prices (- period) = Ok b -> py_le b (of_int 0) = true ->
  calculate prices period = Ok (of_int 0, of_int 0).
Proof.
  intros Hpos Hle Hb Hb0.
  rewrite (calculate_unfold prices period b Hpos Hle Hb), Hb0. reflexivity.
Qed.

Lemma guard_no_gain (prices : list num) (period : Z)
      (b : num) (cumulative : list num) (total_gain : num) :
  0 < period -> period <= len prices ->
  py_index prices (- period) = Ok b -> py_le b (of_int 0) = false ->
  cumulative_pcts (slice_from prices (- period)) b = Ok cumulative ->
  py_index cumulative (-1) = Ok total_gain ->
  py_le total_gain (of_int 0) = true ->
  calculate prices period = Ok (of_int 0, py_round1 total_gain).
Proof.
  intros Hpos Hle Hb Hb0 Hc Ht Ht0.
  rewrite (calculate_unfold prices period b Hpos Hle Hb), Hb0, Hc.
  cbn [bind]. rewrite Ht. cbn [bind]. rewrite Ht0. reflexivity.
Qed.

Lemma calculate_gain (prices : list num) (period : Z)
      (b : num) (cumulative : list num) (total_gain : num) :
  0 < period -> period <= len prices ->
  py_index prices (- period) = Ok b -> py_le b (of_int 0) = false ->
  cumulative_pcts (slice_from prices (- period)) b = Ok cumulative ->
  py_index cumulative (-1) = Ok total_gain ->
  py_le total_gain (of_int 0) = false ->
  calculate prices period = score_window cumulative total_gain period.
Proof.
  intros Hpos Hle Hb Hb0 Hc Ht Ht0.
  rewrite (calculate_unfold prices period b Hpos Hle Hb), Hb0, Hc.
  cbn [bind]. rewrite Ht. cbn [bind]. rewrite Ht0. reflexivity.
Qed.

End Guards.

(** ** Comparisons of Python numbers *)

Module Py_order.
Import Py.

Lemma SFcompare_antisym (f g : float) :
  SFcompare g f = option_map CompOpp (SFcompare f g).
Proof.
  destruct f as [s1 | s1 | | s1 m1 e1], g as [s2 | s2 | | s2 m2 e2];
    try reflexivity;
    try (destruct s1; reflexivity); try (destruct s2; reflexivity);
    try (destruct s1, s2; reflexivity).
  destruct s1, s2; try reflexivity; cbn;
    rewrite (Z.compare_antisym e1 e2); destruct (e1 ?= e2); cbn;
    try reflexivity;
    rewrite (Pos.compare_cont_antisym m1 m2 Eq); cbn;
    destruct (Pos.compare_cont Eq m1 m2); reflexivity.
Qed.

Lemma compare_antisym (x y : pynum) :
  compare y x = option_map CompOpp (compare x y).
Proof.
  destruct x as [a | f], y as [b | g]; cbn.
  - now rewrite (Z.compare_antisym a b).
  - destruct (compare_float_int g a) as [[ | | ] | ]; reflexivity.
  - reflexivity.
  - apply SFcompare_antisym.
Qed.

Lemma lt_le (x y : pynum) : lt x y = true -> le x y = true.
Proof. unfold lt, le. destruct (compare x y) as [[ | | ] | ]; congruence. Qed.

Lemma lt_not_le (x y : pynum) : lt x y = true -> le y x = false.
Proof.
  unfold lt, le. rewrite (compare_antisym x y).
  destruct (compare x y) as [[ | | ] | ]; cbn; congruence.
Qed.

(** Against the int [0] the exact comparison is the float comparison
    with [0.0]. *)
Lemma compare_float_0 (f : float) :
  compare_float_int f 0 = SFcompare f fzero.
Proof.
  destruct f as [s | s | | s m e]; try reflexivity.
  unfold compare_float_int, SFcompare, fzero.
  destruct (0 <=? e) eqn:He.
  - apply Z.leb_le in He.
    assert (0 < Z.pos m * 2 ^ e) by (apply Z.mul_pos_pos; [ lia | now apply Z.pow_pos_nonneg ]).
    unfold cond_Zopp.
    destruct s; f_equal; [ apply Z.compare_lt_iff | apply Z.compare_gt_iff ]; lia.
  - destruct s; reflexivity.
Qed.

Lemma le_float_0 (f : float) : le (PyFloat f) (PyInt 0) = SFleb f fzero.
Proof. unfold le, SFleb. cbn [compare]. now rewrite compare_float_0. Qed.

Lemma lt_0_float (f : float) : lt (PyInt 0) (PyFloat f) = SFltb fzero f.
Proof.
  unfold lt, SFltb. cbn [compare]. rewrite compare_float_0.
  now rewrite (SFcompare_antisym f fzero).
Qed.

End Py_order.

(** ** Degenerate inputs *)

(** C1: a price list shorter than the period, or a window whose first price
    [prices[-period]] is [<= 0], makes [calculate] return the pair [(0, 0)],
    which equals [(0.0, 0.0)]; nothing is raised. *)
Theorem calculate_degenerate (prices : list Py.float) (period : Z) :
  0 < period ->
  len prices < period \/
  (period <= len prices /\
   exists b, py_index prices (- period) = Ok b /\
             py_le (Py.PyFloat b) (of_int 0) = true) ->
  calculate (Py.floats prices) period = Ok (Py.PyInt 0, Py.PyInt 0) /\
  Py.pair_eqb (Py.PyInt 0, Py.PyInt 0)
              (Py.PyFloat Py.fzero, Py.PyFloat Py.fzero) = true.
Proof.
  intros Hpos Hcase. split; [ | reflexivity ].
  destruct Hcase as [Hshort | [Hlen (b & Hb & Hb0)]].
  - apply (@calculate_short Py.pynum Py.number).
    unfold Py.floats. now rewrite len_map.
  - apply (@calculate_bad_base Py.pynum Py.number _ period (Py.PyFloat b)); trivial.
    + unfold Py.floats. now rewrite len_map.
    + unfold Py.floats. now rewrite py_index_map, Hb.
Qed.

Lemma calculate_degenerate_witness :
  calculate (Py.floats (Py.of_ints (0 :: repeat 10 29))) 30
  = Ok (Py.PyInt 0, Py.PyInt 0) /\
  Py.pair_eqb (Py.PyInt 0, Py.PyInt 0)
              (Py.PyFloat Py.fzero, Py.PyFloat Py.fzero) = true.
Proof.
  apply (calculate_degenerate (Py.of_ints (0 :: repeat 10 29)) 30).
  - lia.
  - right. split.
    + vm_compute. discriminate.
    + exists (Py.Zfloat 0). split; reflexivity.
Defined.

Lemma py_index_slice_last {A : Type} (l : list A) (period : Z) :
  0 < period -> period <= len l ->
  py_index (slice_from l (- period)) (-1) = py_index l (-1).
Proof.
  intros Hpos Hle. unfold py_index.
  rewrite (len_slice_from l period Hpos Hle).
  replace (-1 <? 0) with true by reflexivity.
  replace (0 <=? -1 + period) with true by (symmetry; apply Z.leb_le; lia).
  replace (-1 + period <? period) with true by (symmetry; apply Z.ltb_lt; lia).
  replace (0 <=? -1 + len l) with true by (symmetry; apply Z.leb_le; lia).
  replace (-1 + len l <? len l) with true by (symmetry; apply Z.ltb_lt; lia).
  simpl andb. cbv iota.
  unfold slice_from.
  replace (- period <? 0) with true by (symmetry; apply Z.ltb_lt; lia).
  rewrite nth_error_skipn. unfold len in *.
  replace (Z.to_nat (Z.max 0 (- period + Z.of_nat (List.length l)))
           + Z.to_nat (-1 + period))%nat
    with (Z.to_nat (-1 + Z.of_nat (List.length l))) by lia.
  reflexivity.
Qed.

(** ** The percentage curve of a list of floats *)

Module Py_curve.
Import Py Py_domain Py_order.

Lemma positive_nonzero (b : float) :
  py_lt (of_int 0) (PyFloat b) = true -> SFeqb b fzero = false.
Proof.
  cbn [py_lt of_int number]. rewrite lt_0_float.
  unfold SFltb, SFeqb. rewrite (SFcompare_antisym fzero b).
  destruct (SFcompare fzero b) as [[ | | ] | ]; cbn; congruence.
Qed.

Lemma positive_not_le (b : float) :
  py_lt (of_int 0) (PyFloat b) = true ->
  py_le (PyFloat b) (of_int 0) = false.
Proof. apply lt_not_le. Qed.

Lemma pct_change_float (b p : float) :
  SFeqb b fzero = false ->
  pct_change (PyFloat b) (PyFloat p) = Ok (PyFloat (fpct b p)).
Proof.
  intros Hb. unfold pct_change. cbn. rewrite Hb. reflexivity.
Qed.

Lemma cumulative_pcts_floats (w : list float) (b : float) :
  SFeqb b fzero = false ->
  cumulative_pcts (floats w) (PyFloat b) = Ok (floats (map (fpct b) w)).
Proof.
  intros Hb. unfold cumulative_pcts. induction w as [ | p w IH].
  - reflexivity.
  - cbn [floats map mapM]. rewrite (pct_change_float b p Hb).
    cbn [bind]. unfold floats in IH. rewrite IH. reflexivity.
Qed.

(** The guards of [calculate] on a list of floats. *)
Lemma calculate_floats (prices : list float) (period : Z) (b last : float) :
  0 < period -> period <= len prices ->
  py_index prices (- period) = Ok b ->
  py_index prices (-1) = Ok last ->
  py_le (PyFloat b) (of_int 0) = false ->
  SFeqb b fzero = false ->
  calculate (floats prices) period =
  if py_le (PyFloat (fpct b last)) (of_int 0)
  then Ok (PyInt 0, PyFloat (fround1 (fpct b last)))
  else score_window (floats (map (fpct b) (slice_from prices (- period))))
                    (PyFloat (fpct b last)) period.
Proof.
  intros Hpos Hle Hb Hlast Hb0 Hnz.
  assert (Hlen : period <= len (floats prices))
    by (unfold floats; now rewrite len_map).
  assert (Hb' : py_index (floats prices) (- period) = Ok (PyFloat b))
    by (unfold floats; now rewrite py_index_map, Hb).
  rewrite (calculate_unfold (floats prices) period (PyFloat b) Hpos Hlen Hb'), Hb0.
  unfold floats at 1. rewrite slice_from_map.
  fold (floats (slice_from prices (- period))).
  rewrite (cumulative_pcts_floats _ b Hnz). cbn [bind].
  unfold floats at 1. rewrite py_index_map, py_index_map.
  rewrite (py_index_slice_last prices period Hpos Hle), Hlast.
  reflexivity.
Qed.

End Py_curve.

(** C2: when the window is long enough, its first price is positive and the
    percentage change from its first to its last price is [<= 0], the result
    is [(0, round(total_gain, 1))]: the score is zero and the gain is the
    rounded change itself. *)
Theorem calculate_no_gain_reports_gain
        (prices : list Py.float) (period : Z) (b last : Py.float) :
  0 < period -> period <= len prices ->
  py_index prices (- period) = Ok b ->
  py_index prices (-1) = Ok last ->
  py_lt (of_int 0) (Py.PyFloat b) = true ->
  py_le (Py.PyFloat (Py_domain.fpct b last)) (of_int 0) = true ->
  calculate (Py.floats prices) period
  = Ok (Py.PyInt 0, py_round1 (Py.PyFloat (Py_domain.fpct b last))) /\
  Py.eqb (Py.PyInt 0) (Py.PyFloat Py.fzero) = true.
Proof.
  intros Hpos Hle Hb Hlast Hb0 Hgain. split; [ | reflexivity ].
  rewrite (Py_curve.calculate_floats prices period b last); trivial.
  - now rewrite Hgain.
  - now apply Py_curve.positive_not_le.
  - now apply Py_curve.positive_nonzero.
Qed.

Lemma calculate_no_gain_reports_gain_witness :
  calculate (Py.floats (Py.of_ints (repeat 100 29 ++ [90]))) 30
  = Ok (Py.PyInt 0, Py.PyFloat (Py.Zfloat (-10))) /\
  Py.eqb (Py.PyInt 0) (Py.PyFloat Py.fzero) = true.
Proof.
  apply (calculate_no_gain_reports_gain
           (Py.of_ints (repeat 100 29 ++ [90])) 30 (Py.Zfloat 100) (Py.Zfloat 90)).
  - lia.
  - vm_compute. discriminate.
  - reflexivity.
  - reflexivity.
  - reflexivity.
  - vm_compute. reflexivity.
Defined.

(** ** Score categories *)

Lemma seven_labels_distinct : NoDup seven_labels.
Proof.
  unfold seven_labels.
  repeat (constructor;
          [ cbn; intros Hin; repeat destruct Hin as [Hin | Hin];
            discriminate Hin || exact Hin
          | ]).
  constructor.
Qed.

(** C7: [get_score_category] answers by the first test that holds, in the
    order [gain <= 0], [score >= 90], [>= 75], [>= 60], [>= 45], [>= 20],
    otherwise "Bad": its text, without the closing pictogram, is the label
    the table of the specification gives, one of seven distinct labels; with
    [gain <= 0] it is "Negative Return" whatever the score. *)
Theorem get_score_category_precedence
        {num : Type} `{PyNumber num} (score gain : num) :
  label (get_score_category score gain) = category_by_precedence score gain /\
  In (label (get_score_category score gain)) seven_labels /\
  NoDup seven_labels /\
  (py_le gain (of_int 0) = true ->
   get_score_category score gain = "Negative Return 📉"%string).
Proof.
  unfold get_score_category, category_by_precedence, category_table.
  cbn [first_match].
  repeat split.
  - destruct (py_le gain (of_int 0)); [ reflexivity | ].
    destruct (py_le (of_int 90) score); [ reflexivity | ].
    destruct (py_le (of_int 75) score); [ reflexivity | ].
    destruct (py_le (of_int 60) score); [ reflexivity | ].
    destruct (py_le (of_int 45) score); [ reflexivity | ].
    destruct (py_le (of_int 20) score); reflexivity.
  - destruct (py_le gain (of_int 0)); [ cbn; tauto | ].
    destruct (py_le (of_int 90) score); [ cbn; tauto | ].
    destruct (py_le (of_int 75) score); [ cbn; tauto | ].
    destruct (py_le (of_int 60) score); [ cbn; tauto | ].
    destruct (py_le (of_int 45) score); [ cbn; tauto | ].
    destruct (py_le (of_int 20) score); cbn; tauto.
  - apply seven_labels_distinct.
  - intros Hgain. now rewrite Hgain.
Qed.

Lemma get_score_category_precedence_witness :
  label (get_score_category (Py.PyFloat (Py.Zfloat 100)) (Py.PyFloat (Py.Zfloat (-3))))
  = "Negative Return"%string /\
  get_score_category (Py.PyFloat (Py.Zfloat 100)) (Py.PyFloat (Py.Zfloat (-3)))
  = "Negative Return 📉"%string.
Proof.
  destruct (get_score_category_precedence
              (Py.PyFloat (Py.Zfloat 100)) (Py.PyFloat (Py.Zfloat (-3))))
    as (Hlabel & _ & _ & Hneg).
  split.
  - exact Hlabel.
  - apply Hneg. reflexivity.
Defined.

(** ** Loops *)

Lemma mapM_ok {A B : Type} (f : A -> result B) (g : A -> B) (l : list A) :
  (forall a, In a l -> f a = Ok (g a)) -> mapM f l = Ok (map g l).
Proof.
  induction l as [ | a l IH]; intros Hf.
  - reflexivity.
  - cbn [mapM map]. rewrite (Hf a (or_introl eq_refl)). cbn [bind].
    rewrite IH; [ reflexivity | ].
    intros a' Ha'. apply Hf. now right.
Qed.

Lemma foldM_range {S : Type} (f : S -> Z -> result S) (P : nat -> S -> Prop)
      (n start : nat) (s : S) :
  P start s ->
  (forall k s0, (start <= k < start + n)%nat -> P k s0 ->
                exists s', f s0 (Z.of_nat k) = Ok s' /\ P (Datatypes.S k) s') ->
  exists s', foldM f (map Z.of_nat (seq start n)) s = Ok s' /\
             P (start + n)%nat s'.
Proof.
  revert start s. induction n as [ | n IH]; intros start s Hs Hstep.
  - exists s. rewrite Nat.add_0_r. now split.
  - cbn [seq map foldM].
    destruct (Hstep start s ltac:(lia) Hs) as (s1 & Hf & Hs1).
    rewrite Hf. cbn [bind].
    destruct (IH (Datatypes.S start) s1 Hs1) as (s' & Hfold & Hs').
    + intros k s0 Hk. apply Hstep. lia.
    + exists s'. split; [ exact Hfold | ].
      now replace (start + Datatypes.S n)%nat with (Datatypes.S start + n)%nat by lia.
Qed.

Lemma py_index_nat {A : Type} (l : list A) (k : nat) (a : A) :
  nth_error l k = Some a -> py_index l (Z.of_nat k) = Ok a.
Proof.
  intros Hk.
  assert (Hlt : (k < List.length l)%nat) by (apply nth_error_Some; congruence).
  unfold py_index, len.
  replace (Z.of_nat k <? 0) with false by (symmetry; apply Z.ltb_ge; lia).
  replace (0 <=? Z.of_nat k) with true by (symmetry; apply Z.leb_le; lia).
  replace (Z.of_nat k <? Z.of_nat (List.length l)) with true
    by (symmetry; apply Z.ltb_lt; lia).
  cbn [andb]. now rewrite Nat2Z.id, Hk.
Qed.

Lemma len_range (n : Z) : len (range n) = Z.max 0 n.
Proof. unfold len, range. rewrite length_map, length_seq. lia. Qed.

(** ** Exact arithmetic *)

Module Exact_facts.
Import Exact.
Local Open Scope R_scope.

Lemma le_true (x y : R) : le x y = true <-> x <= y.
Proof. unfold le. destruct (Rle_dec x y); split; intros; (lra || congruence). Qed.

Lemma le_false (x y : R) : le x y = false <-> y < x.
Proof. unfold le. destruct (Rle_dec x y); split; intros; (lra || congruence). Qed.

Lemma lt_true (x y : R) : lt x y = true <-> x < y.
Proof. unfold lt. destruct (Rlt_dec x y); split; intros; (lra || congruence). Qed.

Lemma lt_false (x y : R) : lt x y = false <-> y <= x.
Proof. unfold lt. destruct (Rlt_dec x y); split; intros; (lra || congruence). Qed.

Lemma truediv_ok (x y : R) : y <> 0 -> truediv x y = Ok (x / y).
Proof. intros Hy. unfold truediv. now destruct (Req_dec_T y 0). Qed.

Lemma round_half_even_IZR (z : Z) : round_half_even (IZR z) = z.
Proof.
  assert (Hint : Int_part (IZR z) = z) by (symmetry; apply Int_part_spec; lra).
  unfold round_half_even, frac_part. rewrite Hint.
  destruct (Rlt_dec (IZR z - IZR z) (1 / 2)); [ reflexivity | lra ].
Qed.

Lemma round1_IZR (z : Z) : round1 (IZR z) = IZR z.
Proof.
  unfold round1. rewrite <- mult_IZR, round_half_even_IZR, mult_IZR. field.
Qed.

Lemma ideal_line_exact (d : R) (period : Z) :
  ideal_line d period = Ok (map (fun i => IZR i * d) (range period)).
Proof. unfold ideal_line. now apply mapM_ok. Qed.

Lemma cumulative_pcts_exact (w : list R) (b : R) :
  b <> 0 ->
  cumulative_pcts w b = Ok (map (fun p => (p - b) / b * 100) w).
Proof.
  intros Hb. unfold cumulative_pcts. apply mapM_ok. intros p _.
  unfold pct_change. cbn. now rewrite (truediv_ok _ b Hb).
Qed.

(** The loop of lines 36-39: the deviations add up to a non-negative sum,
    zero when the two curves coincide, and [total_gain] is added once for
    every index but the last. *)
Lemma deviation_sums_exact (cumulative ideal : list R) (total_gain : R)
      (period : Z) :
  len cumulative = period -> len ideal = period ->
  exists td mpd,
    deviation_sums cumulative ideal total_gain period = Ok (td, mpd) /\
    0 <= td /\
    mpd = total_gain * IZR (Z.max 0 (period - 1)) /\
    (cumulative = ideal -> td = 0).
Proof.
  intros Hc Hi. unfold deviation_sums, range.
  destruct (foldM_range
              (deviation_step cumulative ideal total_gain period)
              (fun k acc =>
                 0 <= fst acc /\
                 snd acc = total_gain
                           * IZR (Z.max 0 (Z.min (Z.of_nat k) (period - 1))) /\
                 (cumulative = ideal -> fst acc = 0))
              (Z.to_nat period) 0%nat (of_int 0%Z, of_int 0%Z))
    as ([td mpd] & Hfold & Htd & Hmpd & Hzero).
  - cbn [fst snd of_int number]. repeat split; try lra.
    replace (Z.max 0 (Z.min (Z.of_nat 0) (period - 1))) with 0%Z by lia. lra.
  - intros k [td mpd] Hk (Htd & Hmpd & Hzero). cbn [fst snd] in *.
    assert (Hkc : (k < List.length cumulative)%nat) by (unfold len in Hc; lia).
    assert (Hki : (k < List.length ideal)%nat) by (unfold len in Hi; lia).
    destruct (nth_error cumulative k) as [c | ] eqn:Ec;
      [ | apply nth_error_None in Ec; lia ].
    destruct (nth_error ideal k) as [l | ] eqn:El;
      [ | apply nth_error_None in El; lia ].
    unfold deviation_step.
    rewrite (py_index_nat _ _ _ Ec), (py_index_nat _ _ _ El).
    cbn [bind py_sub py_add py_abs number of_int].
    eexists. split; [ reflexivity | ]. cbn [fst snd]. repeat split.
    + pose proof (Rabs_pos (c - l)). lra.
    + rewrite Hmpd. destruct (Z.of_nat k <? period - 1)%Z eqn:Hlast.
      * apply Z.ltb_lt in Hlast.
        replace (Z.max 0 (Z.min (Z.of_nat (S k)) (period - 1)))
          with (Z.max 0 (Z.min (Z.of_nat k) (period - 1)) + 1)%Z by lia.
        rewrite plus_IZR. lra.
      * apply Z.ltb_ge in Hlast.
        replace (Z.max 0 (Z.min (Z.of_nat (S k)) (period - 1)))
          with (Z.max 0 (Z.min (Z.of_nat k) (period - 1))) by lia.
        lra.
    + intros Heq. rewrite (Hzero Heq). subst ideal.
      assert (c = l) by congruence. subst l.
      replace (c - c) with 0 by lra. rewrite Rabs_R0. lra.
  - exists td, mpd. cbn [fst snd] in *. repeat split; trivial.
    rewrite Hmpd. f_equal. f_equal.
    replace (0 + Z.to_nat period)%nat with (Z.to_nat period) by lia. lia.
Qed.

(** Lines 41-47 on a zero total deviation. *)
Lemma score_of_no_deviation (mpd : R) :
  n <- normalized_deviation 0 mpd ;; uniformity_score n = Ok 100.
Proof.
  assert (Hscore : uniformity_score 0 = Ok 100).
  { unfold uniformity_score, py_min, py_max.
    cbn [py_lt py_sub py_mul math_sqrt of_int number py_round1].
    replace (lt 1 0) with false by (symmetry; apply lt_false; lra).
    unfold sqrt. destruct (Rlt_dec 0 0); [ lra | ]. cbn [bind].
    rewrite sqrt_0. replace (100 * (1 - 0)) with 100 by lra.
    rewrite round1_IZR.
    replace (lt 0 100) with true by (symmetry; apply lt_true; lra).
    replace (lt 100 100) with false by (symmetry; apply lt_false; lra).
    reflexivity. }
  unfold normalized_deviation. cbn [py_lt py_truediv of_int number].
  destruct (lt 0 mpd) eqn:Hmpd.
  - apply lt_true in Hmpd. rewrite truediv_ok by lra. cbn [bind].
    replace (0 / mpd) with 0 by (unfold Rdiv; ring). exact Hscore.
  - cbn [bind]. exact Hscore.
Qed.

(** A curve that lies on the ideal line has no deviation and scores 100. *)
Lemma score_window_on_ideal_line (cumulative ideal : list R)
      (total_gain d : R) (period : Z) :
  len cumulative = period ->
  py_truediv total_gain (of_int (period - 1)) = Ok d ->
  ideal_line d period = Ok ideal ->
  cumulative = ideal ->
  (exists mpd, deviation_sums cumulative ideal total_gain period = Ok (0, mpd)) /\
  score_window cumulative total_gain period
  = Ok (100, py_round1 total_gain).
Proof.
  intros Hlen Hd Hideal Heq.
  destruct (deviation_sums_exact cumulative ideal total_gain period Hlen)
    as (td & mpd & Hsums & _ & _ & Hzero).
  { now rewrite <- Heq. }
  rewrite (Hzero Heq) in Hsums. split; [ now exists mpd | ].
  unfold score_window. rewrite Hd. cbn [bind]. rewrite Hideal. cbn [bind].
  rewrite Hsums. cbn [bind].
  pose proof (score_of_no_deviation mpd) as Hscore.
  destruct (normalized_deviation 0 mpd) as [n | e]; [ | discriminate Hscore ].
  cbn [bind] in *. rewrite Hscore. reflexivity.
Qed.

End Exact_facts.

(** ** Only the window matters *)

Lemma slice_from_app {A : Type} (pre w : list A) (period : Z) :
  0 < period -> len w = period -> slice_from (pre ++ w) (- period) = w.
Proof.
  intros Hpos Hw. unfold slice_from.
  replace (- period <? 0) with true by (symmetry; apply Z.ltb_lt; lia).
  unfold len in *. rewrite length_app.
  replace (Z.to_nat (Z.max 0 (- period + Z.of_nat (List.length pre + List.length w))))
    with (List.length pre) by lia.
  now rewrite skipn_app, skipn_all, Nat.sub_diag.
Qed.

Lemma slice_from_all {A : Type} (w : list A) (period : Z) :
  0 < period -> len w = period -> slice_from w (- period) = w.
Proof. exact (slice_from_app [] w period). Qed.

Lemma calculate_suffix {num : Type} `{PyNumber num}
      (pre w : list num) (period : Z) :
  0 < period -> len w = period ->
  calculate (pre ++ w) period = calculate w period.
Proof.
  intros Hpos Hw. unfold calculate.
  rewrite (slice_from_app pre w period Hpos Hw).
  rewrite (slice_from_all w period Hpos Hw).
  replace (len (pre ++ w) <? period) with false
    by (symmetry; apply Z.ltb_ge; unfold len in *; rewrite length_app; lia).
  replace (len w <? period) with false by (symmetry; apply Z.ltb_ge; lia).
  reflexivity.
Qed.

Lemma nth_error_range (n : Z) (k : nat) :
  Z.of_nat k < n -> nth_error (range n) k = Some (Z.of_nat k).
Proof.
  intros Hk. unfold range. rewrite nth_error_map.
  rewrite (nth_error_nth' _ 0%nat) by (rewrite length_seq; lia).
  rewrite seq_nth by lia. reflexivity.
Qed.

Lemma py_index_range_last (n : Z) : 0 < n -> py_index (range n) (-1) = Ok (n - 1).
Proof.
  intros Hn. unfold py_index. rewrite len_range.
  replace (-1 <? 0) with true by reflexivity.
  replace (0 <=? -1 + Z.max 0 n) with true by (symmetry; apply Z.leb_le; lia).
  replace (-1 + Z.max 0 n <? Z.max 0 n) with true by (symmetry; apply Z.ltb_lt; lia).
  cbn [andb]. rewrite nth_error_range by lia. f_equal. lia.
Qed.

(** ** Constant steps and constant percentages *)

(** [round(x, 1)] is at most a twentieth above [x]. *)
Lemma round1_above (x : R) : (Exact.round1 x <= x + 1 / 20)%R.
Proof.
  unfold Exact.round1, Exact.round_half_even, frac_part.
  destruct (base_Int_part (x * 10)) as [Hlo Hhi].
  destruct (Rlt_dec (x * 10 - IZR (Int_part (x * 10))) (1 / 2)) as [Hf | Hf];
    [ lra | ].
  destruct (Rlt_dec (1 / 2) (x * 10 - IZR (Int_part (x * 10)))) as [Hg | Hg];
    [ rewrite plus_IZR; lra | ].
  destruct (Z.even (Int_part (x * 10))); [ lra | rewrite plus_IZR; lra ].
Qed.

(** The prices 100, 200, 400 in exact arithmetic: the curve 0, 100, 300
    against the ideal line 0, 150, 300, the total deviation 50 and a score
    below 100. *)
Lemma doubling_exact :
  cumulative_pcts (map IZR scenario_doubling) 100%R
  = Ok [0%R; 100%R; 300%R] /\
  ideal_line (300 / IZR (3 - 1))%R 3 = Ok [0%R; 150%R; 300%R] /\
  deviation_sums [0%R; 100%R; 300%R] [0%R; 150%R; 300%R] 300%R 3
  = Ok (50%R, 600%R) /\
  exists s,
    calculate (map IZR scenario_doubling) 3 = Ok (s, 300%R) /\ (s < 100)%R.
Proof.
  assert (Hcum : cumulative_pcts (map IZR scenario_doubling) 100%R
                 = Ok [0%R; 100%R; 300%R]).
  { rewrite Exact_facts.cumulative_pcts_exact by lra.
    cbn [map scenario_doubling].
    f_equal. repeat (apply (f_equal2 cons); [ lra | ]). reflexivity. }
  assert (Hideal : ideal_line (300 / IZR (3 - 1))%R 3
                   = Ok [0%R; 150%R; 300%R]).
  { rewrite Exact_facts.ideal_line_exact.
    change (range 3) with [0; 1; 2]. change (3 - 1) with 2. cbn [map].
    f_equal. repeat (apply (f_equal2 cons); [ lra | ]). reflexivity. }
  assert (Hdev : deviation_sums [0%R; 100%R; 300%R] [0%R; 150%R; 300%R] 300%R 3
                 = Ok (50%R, 600%R)).
  { unfold deviation_sums. change (range 3) with [0; 1; 2].
    cbn [foldM bind]. unfold deviation_step.
    change (py_index [0%R; 100%R; 300%R] 0) with (Ok 0%R).
    change (py_index [0%R; 150%R; 300%R] 0) with (Ok 0%R).
    change (py_index [0%R; 100%R; 300%R] 1) with (Ok 100%R).
    change (py_index [0%R; 150%R; 300%R] 1) with (Ok 150%R).
    change (py_index [0%R; 100%R; 300%R] 2) with (Ok 300%R).
    change (py_index [0%R; 150%R; 300%R] 2) with (Ok 300%R).
    cbn [bind py_sub py_add py_abs Exact.number of_int Z.ltb Z.sub Z.compare
         Z.add Z.opp Z.pos_sub Pos.compare Pos.compare_cont Pos.pred_double].
    replace (0 - 0)%R with 0%R by lra. replace (300 - 300)%R with 0%R by lra.
    rewrite Rabs_R0, (Rabs_left (100 - 150)) by lra.
    f_equal. f_equal; lra. }
  repeat split; trivial.
  rewrite (calculate_gain (map IZR scenario_doubling) 3 100%R
                          [0%R; 100%R; 300%R] 300%R);
    [ | lia | vm_compute; discriminate | reflexivity
      | apply Exact_facts.le_false; cbn [of_int Exact.number]; lra
      | exact Hcum | reflexivity
      | apply Exact_facts.le_false; cbn [of_int Exact.number]; lra ].
  unfold score_window.
  change (py_truediv 300%R (of_int (3 - 1)))
    with (Exact.truediv 300 (IZR (3 - 1))).
  rewrite Exact_facts.truediv_ok by (change (3 - 1) with 2; lra).
  cbn [bind]. rewrite Hideal. cbn [bind]. rewrite Hdev. cbn [bind].
  unfold normalized_deviation. cbn [py_lt py_truediv of_int Exact.number].
  replace (Exact.lt 0 600) with true
    by (symmetry; apply Exact_facts.lt_true; lra).
  rewrite Exact_facts.truediv_ok by lra. cbn [bind].
  unfold uniformity_score. unfold py_min at 1.
  cbn [py_lt math_sqrt py_sub py_mul of_int Exact.number py_round1].
  rewrite (Exact_facts.round1_IZR 300).
  replace (Exact.lt 1 (50 / 600)) with false
    by (symmetry; apply Exact_facts.lt_false; lra).
  unfold Exact.sqrt. destruct (Rlt_dec (50 / 600) 0) as [Hneg | _]; [ lra | ].
  cbn [bind]. eexists. split; [ reflexivity | ].
  assert (Hroot : (1 / 4 < sqrt (50 / 600))%R).
  { rewrite <- (sqrt_square (1 / 4)) by lra. apply sqrt_lt_1_alt. lra. }
  pose proof (round1_above (100 * (1 - sqrt (50 / 600)))) as Hround.
  unfold py_min, py_max. cbn [py_lt Exact.number]. unfold Exact.lt.
  repeat destruct (Rlt_dec _ _); lra.
Qed.

(** C6, as stated, fails, whichever way "a constant percentage each step"
    is read.
    - A constant percentage of the price before: the prices 100, 200, 400
      double at each step, yet their curve 0, 100, 300 is not the ideal line
      0, 150, 300, the total deviation is 50 and the score is 71.1, not 100;
      in exact arithmetic the curve, the line and the deviation are the
      same and the score is below 100.
    - A constant percentage of the first price of the window: on binary64
      floats the prices 100, 102, ..., 158 have a total gain of
      57.99999999999999 and a daily gain of 1.9999999999999998, so that the
      curve has 2.0 at index 1 where the ideal line has 1.9999999999999998;
      the curve equals the line at the first and the last index only, and
      the total deviation is about 1.4e-13, not 0 (the score still rounds
      to 100).
    - The two prices 2^-1000 and 2^1000, a single step: on binary64 floats
      the total gain is infinite, the ideal line starts with nan, and the
      score is 0. *)
Lemma constant_percentage_not_on_ideal_line :
  (Py.of_ints scenario_doubling
   = [ Py.Zfloat 100; Py.fmul (Py.Zfloat 100) (Py.Zfloat 2);
       Py.fmul (Py.fmul (Py.Zfloat 100) (Py.Zfloat 2)) (Py.Zfloat 2) ] /\
   cumulative_pcts (Py.floats (Py.of_ints scenario_doubling)) (Py.PyFloat (Py.Zfloat 100))
   = Ok (Py.floats (Py.of_ints [0; 100; 300])) /\
   ideal_line (Py.PyFloat (Py.Zfloat 150)) 3
   = Ok (Py.floats (Py.of_ints [0; 150; 300])) /\
   deviation_sums (Py.floats (Py.of_ints [0; 100; 300]))
                  (Py.floats (Py.of_ints [0; 150; 300]))
                  (Py.PyFloat (Py.Zfloat 300)) 3
   = Ok (Py.PyFloat (Py.Zfloat 50), Py.PyFloat (Py.Zfloat 600)) /\
   calculate (Py.floats (Py.of_ints scenario_doubling)) 3
   = Ok (Py.PyFloat (Py.decimal 711 1), Py.PyFloat (Py.Zfloat 300)) /\
   Py.eqb (Py.PyFloat (Py.decimal 711 1)) (Py.PyFloat (Py.Zfloat 100)) = false) /\
  (cumulative_pcts (map IZR scenario_doubling) 100%R
   = Ok [0%R; 100%R; 300%R] /\
   ideal_line (300 / IZR (3 - 1))%R 3 = Ok [0%R; 150%R; 300%R] /\
   deviation_sums [0%R; 100%R; 300%R] [0%R; 150%R; 300%R] 300%R 3
   = Ok (50%R, 600%R) /\
   exists s,
     calculate (map IZR scenario_doubling) 3 = Ok (s, 300%R) /\ (s < 100)%R) /\
  (exists cumulative ideal,
     cumulative_pcts (Py.floats (Py.of_ints scenario_linear))
                     (Py.PyFloat (Py.Zfloat 100))
     = Ok cumulative /\
     py_index cumulative (-1)
     = Ok (Py.PyFloat (S754_finite false 8162774324609023 (-47))) /\
     py_truediv (Py.PyFloat (S754_finite false 8162774324609023 (-47)))
                (of_int (30 - 1))
     = Ok (Py.PyFloat (S754_finite false 9007199254740991 (-52))) /\
     ideal_line (Py.PyFloat (S754_finite false 9007199254740991 (-52))) 30
     = Ok ideal /\
     py_index cumulative 1 = Ok (Py.PyFloat (Py.Zfloat 2)) /\
     py_index ideal 1
     = Ok (Py.PyFloat (S754_finite false 9007199254740991 (-52))) /\
     equal_at cumulative ideal = true :: repeat false 28 ++ [true] /\
     deviation_sums cumulative ideal
                    (Py.PyFloat (S754_finite false 8162774324609023 (-47))) 30
     = Ok (Py.PyFloat (S754_finite false 5374412836569088 (-95)),
           Py.PyFloat (S754_finite false 7397514231676927 (-42))) /\
     Py.eqb (Py.PyFloat (S754_finite false 5374412836569088 (-95))) (Py.PyInt 0)
     = false) /\
  (forallb (valid_binary Py.prec Py.emax) scenario_overflow = true /\
   cumulative_pcts (Py.floats scenario_overflow)
                   (Py.PyFloat (S754_finite false 4503599627370496 (-1052)))
   = Ok [ Py.PyFloat (S754_zero false); Py.PyFloat (S754_infinity false) ] /\
   ideal_line (Py.PyFloat (S754_infinity false)) 2
   = Ok [ Py.PyFloat S754_nan; Py.PyFloat (S754_infinity false) ] /\
   calculate (Py.floats scenario_overflow) 2
   = Ok (Py.PyInt 0, Py.PyFloat (S754_infinity false)) /\
   Py.eqb (Py.PyInt 0) (Py.PyInt 100) = false).
Proof.
  split; [ | split; [ | split ] ].
  - repeat split; vm_compute; reflexivity.
  - exact doubling_exact.
  - eexists. eexists. split; [ vm_compute; reflexivity | ].
    repeat split; vm_compute; reflexivity.
  - repeat split; vm_compute; reflexivity.
Qed.

(** C6, amended: in exact arithmetic, a window of [n >= 2] prices that
    starts at [b > 0] and rises by the same amount [delta > 0] at each step
    (the same percentage of the window's first price, not of the price
    before) has its cumulative curve on the ideal line, no deviation, and
    the score 100. *)
Theorem constant_step_scores_100 (pre : list R) (b delta : R) (n : Z) :
  (0 < b)%R -> (0 < delta)%R -> 2 <= n ->
  exists cumulative total_gain mpd,
    cumulative_pcts (linear_window b delta n) b = Ok cumulative /\
    py_index cumulative (-1) = Ok total_gain /\
    (0 < total_gain)%R /\
    ideal_line (total_gain / IZR (n - 1))%R n = Ok cumulative /\
    deviation_sums cumulative cumulative total_gain n = Ok (0%R, mpd) /\
    calculate (pre ++ linear_window b delta n) n
    = Ok (100%R, py_round1 total_gain).
Proof.
  intros Hb Hdelta Hn.
  set (f := fun i : Z => ((b + IZR i * delta - b) / b * 100)%R).
  set (total_gain := f (n - 1)).
  assert (Hn1 : (0 < IZR (n - 1))%R) by (apply IZR_lt; lia).
  assert (Hgain : (0 < total_gain)%R).
  { unfold total_gain, f.
    replace ((b + IZR (n - 1) * delta - b) / b * 100)%R
      with (IZR (n - 1) * delta * 100 * / b)%R by (field; lra).
    apply Rmult_lt_0_compat; [ | apply Rinv_0_lt_compat; lra ].
    apply Rmult_lt_0_compat; [ | lra ]. now apply Rmult_lt_0_compat. }
  assert (Hlen : len (linear_window b delta n) = n).
  { unfold linear_window. rewrite len_map, len_range. lia. }
  assert (Hcum : cumulative_pcts (linear_window b delta n) b
                 = Ok (map f (range n))).
  { rewrite Exact_facts.cumulative_pcts_exact by lra.
    unfold linear_window. now rewrite map_map. }
  assert (Hlast : py_index (map f (range n)) (-1) = Ok total_gain).
  { rewrite py_index_map, py_index_range_last by lia. reflexivity. }
  assert (Hideal : ideal_line (total_gain / IZR (n - 1))%R n
                   = Ok (map f (range n))).
  { rewrite Exact_facts.ideal_line_exact. f_equal. apply map_ext.
    intros i. unfold total_gain, f. field. lra. }
  assert (Hbase : py_index (linear_window b delta n) (- n) = Ok b).
  { unfold linear_window. rewrite py_index_map.
    replace (py_index (range n) (- n)) with (Ok (A := Z) 0).
    - f_equal. lra.
    - unfold py_index. rewrite len_range.
      replace (- n <? 0) with true by (symmetry; apply Z.ltb_lt; lia).
      replace (- n + Z.max 0 n) with 0 by lia.
      replace (0 <? Z.max 0 n) with true by (symmetry; apply Z.ltb_lt; lia).
      cbn [Z.leb Z.compare andb Z.to_nat].
      now rewrite (nth_error_range n 0) by lia. }
  destruct (Exact_facts.score_window_on_ideal_line
              (map f (range n)) (map f (range n)) total_gain
              (total_gain / IZR (n - 1))%R n)
    as [[mpd Hdev] Hscore]; trivial.
  { rewrite len_map, len_range. lia. }
  { apply Exact_facts.truediv_ok. lra. }
  exists (map f (range n)), total_gain, mpd.
  repeat split; trivial.
  rewrite calculate_suffix by lia.
  rewrite (calculate_gain _ n b (map f (range n)) total_gain); trivial; try lia.
  - apply Exact_facts.le_false. exact Hb.
  - rewrite slice_from_all by lia. exact Hcum.
  - apply Exact_facts.le_false. exact Hgain.
Qed.

Lemma constant_step_scores_100_witness :
  exists cumulative total_gain mpd,
    cumulative_pcts (linear_window 100 2 30) 100%R = Ok cumulative /\
    py_index cumulative (-1) = Ok total_gain /\
    (0 < total_gain)%R /\
    ideal_line (total_gain / IZR (30 - 1))%R 30 = Ok cumulative /\
    deviation_sums cumulative cumulative total_gain 30 = Ok (0%R, mpd) /\
    calculate ([] ++ linear_window 100 2 30) 30 = Ok (100%R, py_round1 total_gain).
Proof.
  apply (constant_step_scores_100 [] 100%R 2%R 30); [ lra | lra | lia ].
Defined.

(** ** Scale invariance *)

(** C10: in exact arithmetic, multiplying every price by the same positive
    constant leaves the result of [calculate] unchanged. *)
Theorem calculate_scale_invariant (prices : list R) (period : Z) (c : R) :
  (0 < c)%R ->
  calculate (map (Rmult c) prices) period = calculate prices period.
Proof.
  intros Hc. unfold calculate.
  rewrite len_map, slice_from_map, py_index_map.
  destruct (len prices <? period); [ reflexivity | ].
  destruct (py_index (slice_from prices (- period)) 0) as [b | e];
    [ | reflexivity ].
  cbn [bind py_le of_int Exact.number].
  destruct (Exact.le b 0) eqn:Hb.
  - apply Exact_facts.le_true in Hb.
    replace (Exact.le (c * b) 0) with true; [ reflexivity | ].
    symmetry. apply Exact_facts.le_true. nra.
  - apply Exact_facts.le_false in Hb.
    replace (Exact.le (c * b) 0) with false
      by (symmetry; apply Exact_facts.le_false; nra).
    rewrite !Exact_facts.cumulative_pcts_exact by nra.
    rewrite map_map.
    replace (map (fun p => ((c * p - c * b) / (c * b) * 100)%R)
                 (slice_from prices (- period)))
      with (map (fun p => ((p - b) / b * 100)%R) (slice_from prices (- period))).
    + reflexivity.
    + apply map_ext. intros p. field. split; lra.
Qed.

Lemma calculate_scale_invariant_witness :
  calculate (map (Rmult 3) [100; 120; 130]%R) 3 = calculate [100; 120; 130]%R 3.
Proof. apply calculate_scale_invariant. lra. Defined.

(** ** Rounding to binary64: signs and positivity *)

Module Float_facts.
Import Py Py_domain.

Lemma shr_m_of_loc (m : Z) (l : location) : shr_m (shr_record_of_loc m l) = m.
Proof. destruct l as [ | [ | | ]]; reflexivity. Qed.

(** Shifting right keeps a mantissa non-negative. *)
Lemma shr_1_nonneg (x : shr_record) : 0 <= shr_m x -> 0 <= shr_m (shr_1 x).
Proof.
  destruct x as [[ | [p | p | ] | p] r s]; cbn; intros Hm; lia.
Qed.

Lemma iter_shr_1_nonneg (p : positive) (x : shr_record) :
  0 <= shr_m x -> 0 <= shr_m (SpecFloat.iter_pos shr_1 p x).
Proof.
  revert x. induction p as [p IH | p IH | ]; intros x Hx; cbn [SpecFloat.iter_pos].
  - apply IH, IH, shr_1_nonneg, Hx.
  - apply IH, IH, Hx.
  - apply shr_1_nonneg, Hx.
Qed.

Lemma shr_fexp_nonneg (m e : Z) (l : location) :
  0 <= m -> 0 <= shr_m (fst (shr_fexp prec emax m e l)).
Proof.
  intros Hm. unfold shr_fexp, shr.
  destruct (fexp prec emax (Zdigits2 m + e) - e) as [ | p | p]; cbn [fst];
    try (rewrite shr_m_of_loc; exact Hm).
  apply iter_shr_1_nonneg. now rewrite shr_m_of_loc.
Qed.

Lemma round_nearest_even_nonneg (m : Z) (l : location) :
  0 <= m -> 0 <= round_nearest_even m l.
Proof.
  intros Hm. destruct l as [ | [ | | ]]; cbn; try lia.
  destruct (Z.even m); lia.
Qed.

(** The result of rounding has the sign it was given, or is a NaN. *)
Lemma binary_round_aux_sign (s : bool) (m e : Z) (l : location) :
  match binary_round_aux prec emax s m e l with
  | S754_zero s' | S754_infinity s' | S754_finite s' _ _ => s' = s
  | S754_nan => True
  end.
Proof.
  unfold binary_round_aux.
  destruct (shr_fexp prec emax m e l) as [mrs' e'].
  destruct (shr_fexp prec emax _ e' loc_Exact) as [mrs'' e''].
  destruct (shr_m mrs'') as [ | p | p]; trivial.
  now destruct (e'' <=? emax - prec).
Qed.

(** Rounding a non-negative mantissa never gives a NaN. *)
Lemma binary_round_aux_not_nan (s : bool) (m e : Z) (l : location) :
  0 <= m -> is_nan (binary_round_aux prec emax s m e l) = false.
Proof.
  intros Hm. unfold binary_round_aux.
  pose proof (shr_fexp_nonneg m e l Hm) as H1.
  destruct (shr_fexp prec emax m e l) as [mrs' e']. cbn [fst] in H1.
  pose proof (shr_fexp_nonneg _ e' loc_Exact
                (round_nearest_even_nonneg _ (loc_of_shr_record mrs') H1)) as H2.
  destruct (shr_fexp prec emax _ e' loc_Exact) as [mrs'' e'']. cbn [fst] in H2.
  destruct (shr_m mrs'') as [ | p | p]; try reflexivity; try lia.
  now destruct (e'' <=? emax - prec).
Qed.

(** Shifting right by fewer places than the mantissa has digits leaves a
    positive mantissa. *)
Lemma shr_1_digits (x : shr_record) :
  0 < shr_m x -> 1 < Zdigits2 (shr_m x) ->
  0 < shr_m (shr_1 x) /\ Zdigits2 (shr_m (shr_1 x)) = Zdigits2 (shr_m x) - 1.
Proof.
  destruct x as [[ | [p | p | ] | p] r s]; cbn [shr_m shr_1 Zdigits2 digits2_pos];
    intros Hm Hd; try lia.
Qed.

Lemma iter_shr_1_digits (p : positive) (x : shr_record) :
  0 < shr_m x -> Zpos p < Zdigits2 (shr_m x) ->
  0 < shr_m (SpecFloat.iter_pos shr_1 p x) /\
  Zdigits2 (shr_m (SpecFloat.iter_pos shr_1 p x)) = Zdigits2 (shr_m x) - Zpos p.
Proof.
  revert x. induction p as [p IH | p IH | ]; intros x Hx Hd; cbn [SpecFloat.iter_pos].
  - destruct (shr_1_digits x Hx ltac:(lia)) as [H1 D1].
    destruct (IH (shr_1 x) H1 ltac:(lia)) as [H2 D2].
    destruct (IH _ H2 ltac:(lia)) as [H3 D3].
    split; [ exact H3 | lia ].
  - destruct (IH x Hx ltac:(lia)) as [H2 D2].
    destruct (IH _ H2 ltac:(lia)) as [H3 D3].
    split; [ exact H3 | lia ].
  - apply shr_1_digits; [ exact Hx | lia ].
Qed.

Lemma shr_fexp_pos (m : positive) (e : Z) (l : location) :
  emin <= e ->
  0 < shr_m (fst (shr_fexp prec emax (Zpos m) e l)) /\
  emin <= snd (shr_fexp prec emax (Zpos m) e l).
Proof.
  intros He. unfold shr_fexp, shr.
  destruct (fexp prec emax (Zdigits2 (Z.pos m) + e) - e) as [ | p | p] eqn:Hn;
    cbn [fst snd]; rewrite ?shr_m_of_loc; try (split; [ lia | exact He ]).
  assert (Hp : Zpos p = Zdigits2 (Zpos m) - prec).
  { unfold fexp, emin, SpecFloat.emin, prec, emax in *. lia. }
  split.
  - apply iter_shr_1_digits; rewrite shr_m_of_loc; [ lia | ].
    unfold prec in Hp. lia.
  - lia.
Qed.

Lemma round_nearest_even_pos (m : Z) (l : location) :
  0 < m -> 0 < round_nearest_even m l.
Proof.
  intros Hm. destruct l as [ | [ | | ]]; cbn; try lia.
  destruct (Z.even m); lia.
Qed.

(** Rounding a positive mantissa whose exponent is not below [emin] gives
    a positive float or [+inf]: nothing underflows to zero. *)
Lemma binary_round_aux_pos (m : positive) (e : Z) (l : location) :
  emin <= e -> pos (binary_round_aux prec emax false (Zpos m) e l).
Proof.
  intros He. unfold binary_round_aux.
  destruct (shr_fexp_pos m e l He) as [H1 E1].
  destruct (shr_fexp prec emax (Zpos m) e l) as [mrs' e']. cbn [fst snd] in H1, E1.
  pose proof (round_nearest_even_pos _ (loc_of_shr_record mrs') H1) as Hr.
  destruct (round_nearest_even (shr_m mrs') (loc_of_shr_record mrs'))
    as [ | m2 | m2]; try lia.
  destruct (shr_fexp_pos m2 e' loc_Exact E1) as [H2 E2].
  destruct (shr_fexp prec emax (Zpos m2) e' loc_Exact) as [mrs'' e''].
  cbn [fst snd] in H2, E2.
  destruct (shr_m mrs'') as [ | m3 | m3]; try lia.
  destruct (e'' <=? emax - prec); cbn; trivial.
Qed.

Lemma binary_round_pos (m : positive) (e : Z) :
  emin <= e -> pos (binary_round prec emax false m e).
Proof.
  intros He. unfold binary_round, shl_align.
  destruct (fexp prec emax (Z.pos (digits2_pos m) + e) - e) as [ | d | d] eqn:Hd;
    apply binary_round_aux_pos; trivial.
  unfold fexp, emin, SpecFloat.emin, prec, emax in *. lia.
Qed.

Lemma pos_nonzero (f : float) : pos f -> SFeqb f fzero = false.
Proof. destruct f as [s | [ | ] | | [ | ] m e]; cbn; tauto. Qed.

Lemma pos_lt_0 (f : float) : pos f -> SFltb fzero f = true.
Proof. destruct f as [s | [ | ] | | [ | ] m e]; cbn; tauto. Qed.

(** A finite result of rounding has an exponent of at least [emin]. *)
Lemma shr_fexp_exponent (m e : Z) (l : location) :
  emin <= snd (shr_fexp prec emax m e l).
Proof.
  unfold shr_fexp, shr.
  destruct (fexp prec emax (Zdigits2 m + e) - e) as [ | p | p] eqn:Hn;
    cbn [snd]; unfold fexp, emin, SpecFloat.emin, prec, emax in *; lia.
Qed.

Lemma binary_round_aux_exponent (s : bool) (m e : Z) (l : location) :
  match binary_round_aux prec emax s m e l with
  | S754_finite _ _ e' => emin <= e'
  | _ => True
  end.
Proof.
  unfold binary_round_aux.
  destruct (shr_fexp prec emax m e l) as [mrs' e'].
  pose proof (shr_fexp_exponent
                (round_nearest_even (shr_m mrs') (loc_of_shr_record mrs'))
                e' loc_Exact) as He.
  destruct (shr_fexp prec emax _ e' loc_Exact) as [mrs'' e'']. cbn [snd] in He.
  destruct (shr_m mrs'') as [ | p | p]; trivial.
  now destruct (e'' <=? emax - prec).
Qed.

(** The float of a positive integer is positive. *)
Lemma Zfloat_pos (z : Z) : 0 < z -> pos (Zfloat z).
Proof.
  destruct z as [ | p | p]; try lia. intros _.
  apply binary_round_pos. unfold emin, SpecFloat.emin, prec, emax. lia.
Qed.

End Float_facts.

(** ** Signs of the float operations *)

Module Float_ops.
Import Py Py_domain Float_facts.

Lemma binary_round_sign (s : bool) (m : positive) (e : Z) :
  match binary_round prec emax s m e with
  | S754_zero s' | S754_infinity s' | S754_finite s' _ _ => s' = s
  | S754_nan => True
  end.
Proof.
  unfold binary_round.
  destruct (shl_align m e (fexp prec emax (Z.pos (digits2_pos m) + e))) as [mz ez].
  apply binary_round_aux_sign.
Qed.

Lemma fadd_finite (m1 m2 : positive) (e1 e2 : Z) :
  fadd (S754_finite false m1 e1) (S754_finite false m2 e2)
  = binary_round prec emax false
      (fst (shl_align m1 e1 (Z.min e1 e2)) + fst (shl_align m2 e2 (Z.min e1 e2)))
      (Z.min e1 e2).
Proof. reflexivity. Qed.

Lemma fadd_nonneg (f g : float) :
  nonneg f = true -> nonneg g = true -> nonneg (fadd f g) = true.
Proof.
  intros Hf Hg.
  destruct f as [s1 | [ | ] | | [ | ] m1 e1]; try discriminate Hf;
    destruct g as [s2 | [ | ] | | [ | ] m2 e2]; try discriminate Hg;
    try reflexivity; try (destruct s1; reflexivity);
    try (destruct s2; reflexivity); try (destruct s1, s2; reflexivity).
  rewrite fadd_finite.
  pose proof (binary_round_sign false
                (fst (shl_align m1 e1 (Z.min e1 e2))
                 + fst (shl_align m2 e2 (Z.min e1 e2))) (Z.min e1 e2)) as Hs.
  destruct (binary_round prec emax false _ _) as [s | s | | s m e];
    subst; reflexivity.
Qed.

Lemma fadd_pos (f g : float) : pos f -> pos g -> pos (fadd f g).
Proof.
  intros Hf Hg.
  destruct f as [s1 | [ | ] | | [ | ] m1 e1]; try contradiction;
    destruct g as [s2 | [ | ] | | [ | ] m2 e2]; try contradiction;
    try exact I.
  rewrite fadd_finite. apply binary_round_pos.
  change (emin <= e1) in Hf. change (emin <= e2) in Hg. lia.
Qed.

Lemma fadd_0_l (f : float) : pos f -> fadd (Zfloat 0) f = f.
Proof. destruct f as [s | [ | ] | | [ | ] m e]; try contradiction; reflexivity. Qed.

Lemma fadd_0_r (f : float) : pos f -> fadd f (Zfloat 0) = f.
Proof. destruct f as [s | [ | ] | | [ | ] m e]; try contradiction; reflexivity. Qed.

(** A quotient by a strictly positive float keeps the sign. *)
Lemma fdiv_nonneg (f g : float) :
  nonneg f = true -> SFltb fzero g = true -> nonneg (fdiv f g) = true.
Proof.
  intros Hf Hg.
  destruct g as [s2 | [ | ] | | [ | ] m2 e2]; try discriminate Hg;
    destruct f as [s1 | [ | ] | | [ | ] m1 e1]; try discriminate Hf;
    try reflexivity; try (destruct s1; reflexivity).
  unfold fdiv, SFdiv.
  destruct (SFdiv_core_binary prec emax (Z.pos m1) e1 (Z.pos m2) e2)
    as [[mz ez] lz].
  pose proof (binary_round_aux_sign (xorb false false) mz ez lz) as Hs.
  destruct (binary_round_aux prec emax (xorb false false) mz ez lz)
    as [s | s | | s m e]; cbn in Hs; subst; reflexivity.
Qed.

(** [math.sqrt] has no domain error on a float that is not negative. *)
Lemma fsqrt_defined (f : float) :
  nonneg f = true -> is_nan (fsqrt f) && negb (is_nan f) = false.
Proof.
  intros Hf.
  destruct f as [s | [ | ] | | [ | ] m e]; try discriminate Hf;
    try reflexivity.
  unfold fsqrt, SFsqrt, SFsqrt_core_binary.
  set (m' := match e - 2 * _ with
             | Z0 => Z.pos m
             | Zpos _ => Z.shiftl (Z.pos m) _
             | Zneg _ => 0
             end).
  assert (Hm' : 0 <= m').
  { subst m'. destruct (e - 2 * _) as [ | p | p]; try lia.
    apply Z.shiftl_nonneg. lia. }
  pose proof (Z.sqrtrem_spec m' Hm') as Hspec.
  destruct (Z.sqrtrem m') as [q r].
  rewrite binary_round_aux_not_nan by lia. reflexivity.
Qed.

(** A product that compares above zero is positive in the sense of
    [pos]. *)
Lemma fmul_pos (f g : float) : SFltb fzero (fmul f g) = true -> pos (fmul f g).
Proof.
  assert (Hexp : match fmul f g with
                 | S754_finite _ _ e => emin <= e
                 | _ => True
                 end).
  { destruct f as [s1 | s1 | | s1 m1 e1], g as [s2 | s2 | | s2 m2 e2];
      try exact I. apply binary_round_aux_exponent. }
  destruct (fmul f g) as [s | [ | ] | | [ | ] m e]; cbn; try discriminate; trivial.
Qed.

Lemma fsub_self (f : float) : is_finite f = true -> fsub f f = fzero.
Proof.
  destruct f as [[ | ] | s | | s m e]; try discriminate; try reflexivity.
  intros _. unfold fsub, SFsub. now rewrite Z.sub_diag.
Qed.

(** The percentage change from a positive finite price to itself is
    [+0.0]. *)
Lemma fpct_self (b : float) :
  is_finite b = true -> SFltb fzero b = true -> Py_domain.fpct b b = fzero.
Proof.
  intros Hfin Hpos. unfold Py_domain.fpct. rewrite (fsub_self b Hfin).
  destruct b as [s | s | | [ | ] m e]; try discriminate. reflexivity.
Qed.

End Float_ops.

(** ** Running [calculate] on floats *)

Module Py_run.
Import Py Py_domain Py_order Py_curve Float_facts Float_ops.

Lemma float_of_int_ok (z : Z) :
  Z.abs z <= sys_maxsize -> float_of_int z = Ok (Zfloat z).
Proof.
  intros Hz. unfold float_of_int.
  assert (Hbig : sys_maxsize < 2 ^ 1024 - 2 ^ 970) by (vm_compute; reflexivity).
  set (B := 2 ^ 1024 - 2 ^ 970) in *.
  now replace (Z.abs z <? B) with true by (symmetry; apply Z.ltb_lt; lia).
Qed.

Lemma in_range (n a : Z) : In a (range n) -> 0 <= a < n.
Proof.
  unfold range. rewrite in_map_iff. intros (k & <- & Hk).
  apply in_seq in Hk. lia.
Qed.

Lemma nth_error_floats (l : list float) (k : nat) (f : float) :
  nth_error l k = Some f -> py_index (floats l) (Z.of_nat k) = Ok (PyFloat f).
Proof.
  intros Hk. apply py_index_nat. unfold floats. now apply map_nth_error.
Qed.

Lemma SFabs_nonneg (f : float) : nonneg (SFabs f) = true.
Proof. now destruct f. Qed.

(** Line 30. *)
Lemma daily_uniform_gain_floats (tg : float) (period : Z) :
  2 <= period <= sys_maxsize ->
  py_truediv (PyFloat tg) (of_int (period - 1))
  = Ok (PyFloat (fdiv tg (Zfloat (period - 1)))).
Proof.
  intros Hp. cbn [py_truediv of_int number truediv to_float bind].
  rewrite float_of_int_ok by lia. cbn [bind].
  now rewrite (pos_nonzero _ (Zfloat_pos (period - 1) ltac:(lia))).
Qed.

(** Line 31. *)
Lemma ideal_line_floats (d : float) (period : Z) :
  period <= sys_maxsize ->
  ideal_line (PyFloat d) period
  = Ok (floats (map (fun i => fmul (Zfloat i) d) (range period))).
Proof.
  intros Hp. unfold ideal_line, floats. rewrite map_map.
  apply mapM_ok. intros i Hi. apply in_range in Hi.
  cbn [py_mul of_int number arith to_float bind].
  now rewrite float_of_int_ok by lia.
Qed.

Lemma add_deviation (td : pynum) (d : float) :
  nonneg_num td -> nonneg d = true ->
  exists td', py_add td (PyFloat d) = Ok td' /\ nonneg_num td'.
Proof.
  intros [-> | (t & -> & Ht)] Hd.
  - exists (PyFloat (fadd (Zfloat 0) d)). split; [ reflexivity | ].
    right. eexists. split; [ reflexivity | ]. now apply fadd_nonneg.
  - exists (PyFloat (fadd t d)). split; [ reflexivity | ].
    right. eexists. split; [ reflexivity | ]. now apply fadd_nonneg.
Qed.

Lemma add_scale (tg : float) (period : Z) (k : nat) (mpd : pynum) :
  scale_state tg period k mpd ->
  exists mpd',
    py_add mpd (if Z.of_nat k <? period - 1 then PyFloat tg else of_int 0)
    = Ok mpd' /\
    scale_state tg period (S k) mpd'.
Proof.
  intros [[-> Hk] | (f & -> & Hf)]; destruct (Z.of_nat k <? period - 1) eqn:Hlast.
  - exists (PyFloat (fadd (Zfloat 0) tg)). split; [ reflexivity | ].
    right. eexists. split; [ reflexivity | ].
    intros Htg. now rewrite fadd_0_l.
  - exists (PyInt 0). split; [ reflexivity | ].
    left. split; [ reflexivity | ]. right. apply Z.ltb_ge in Hlast. lia.
  - exists (PyFloat (fadd f tg)). split; [ reflexivity | ].
    right. eexists. split; [ reflexivity | ].
    intros Htg. apply fadd_pos; auto.
  - exists (PyFloat (fadd f (Zfloat 0))). split; [ reflexivity | ].
    right. eexists. split; [ reflexivity | ].
    intros Htg. rewrite fadd_0_r; auto.
Qed.

(** Lines 33-39: the loop runs to its end; the deviations add up to a
    number that is not negative, and with at least two prices the scale is
    a float, positive when the total gain is. *)
Lemma deviation_sums_floats (cumulative ideal : list float) (tg : float)
      (period : Z) :
  len cumulative = period -> len ideal = period ->
  exists td mpd,
    deviation_sums (floats cumulative) (floats ideal) (PyFloat tg) period
    = Ok (td, mpd) /\
    nonneg_num td /\
    ((mpd = PyInt 0 /\ period <= 1) \/
     (exists f, mpd = PyFloat f /\ (pos tg -> pos f))).
Proof.
  intros Hc Hi. unfold deviation_sums, range.
  destruct (foldM_range
              (deviation_step (floats cumulative) (floats ideal) (PyFloat tg) period)
              (fun k acc => nonneg_num (fst acc) /\
                            scale_state tg period k (snd acc))
              (Z.to_nat period) 0%nat (of_int 0, of_int 0))
    as ([td mpd] & Hfold & Htd & Hmpd).
  - split; [ now left | ]. left. split; [ reflexivity | now left ].
  - intros k [td mpd] Hk [Htd Hmpd]. cbn [fst snd] in *.
    unfold len in Hc, Hi.
    destruct (nth_error cumulative k) as [c | ] eqn:Ec;
      [ | apply nth_error_None in Ec; lia ].
    destruct (nth_error ideal k) as [l | ] eqn:El;
      [ | apply nth_error_None in El; lia ].
    unfold deviation_step.
    rewrite (nth_error_floats _ _ _ Ec), (nth_error_floats _ _ _ El).
    cbn [bind].
    change (py_sub (PyFloat c) (PyFloat l)) with (Ok (PyFloat (fsub c l))).
    cbn [bind].
    change (py_abs (PyFloat (fsub c l))) with (PyFloat (SFabs (fsub c l))).
    destruct (add_deviation td (SFabs (fsub c l)) Htd (SFabs_nonneg _))
      as (td' & -> & Htd').
    cbn [bind].
    destruct (add_scale tg period k mpd Hmpd) as (mpd' & -> & Hmpd').
    cbn [bind]. exists (td', mpd'). now repeat split.
  - exists td, mpd. cbn [fst snd] in *. repeat split; trivial.
    destruct Hmpd as [[-> Hk] | Hf]; [ left | now right ].
    split; [ reflexivity | lia ].
Qed.

(** Lines 41-44. *)
Lemma normalized_deviation_floats (td mpd : pynum) :
  nonneg_num td ->
  (mpd = PyInt 0 \/ exists f, mpd = PyFloat f) ->
  exists n, normalized_deviation td mpd = Ok n /\ nonneg_num n.
Proof.
  intros Htd [-> | (f & ->)]; unfold normalized_deviation.
  - exists (PyInt 0). split; [ reflexivity | now left ].
  - destruct (py_lt (of_int 0) (PyFloat f)) eqn:Hlt.
    + pose proof (positive_nonzero f Hlt) as Hnz.
      cbn [py_lt of_int number] in Hlt. rewrite lt_0_float in Hlt.
      destruct Htd as [-> | (t & -> & Ht)].
      * exists (PyFloat (fdiv (Zfloat 0) f)). split.
        -- cbn. now rewrite Hnz.
        -- right. eexists. split; [ reflexivity | ]. now apply fdiv_nonneg.
      * exists (PyFloat (fdiv t f)). split.
        -- cbn. now rewrite Hnz.
        -- right. eexists. split; [ reflexivity | ]. now apply fdiv_nonneg.
    + exists (PyInt 0). split; [ reflexivity | now left ].
Qed.

(** Lines 46-47: no domain error from [math.sqrt]. *)
Lemma math_sqrt_floats (x : pynum) :
  nonneg_num x \/ x = PyInt 1 -> exists r, math_sqrt x = Ok (PyFloat r).
Proof.
  intros [[-> | (f & -> & Hf)] | ->].
  - eexists. reflexivity.
  - cbn [math_sqrt number sqrt to_float bind].
    rewrite (fsqrt_defined f Hf). eexists. reflexivity.
  - eexists. reflexivity.
Qed.

Lemma uniformity_score_floats (n : pynum) :
  nonneg_num n -> exists s, uniformity_score n = Ok s.
Proof.
  intros Hn. unfold uniformity_score.
  destruct (math_sqrt_floats (py_min n (of_int 1))) as (r & ->).
  { unfold py_min. destruct (py_lt (of_int 1) n); [ now right | now left ]. }
  cbn [bind].
  change (py_sub (of_int 1) (PyFloat r)) with (Ok (PyFloat (fsub (Zfloat 1) r))).
  cbn [bind].
  change (py_mul (of_int 100) (PyFloat (fsub (Zfloat 1) r)))
    with (Ok (PyFloat (fmul (Zfloat 100) (fsub (Zfloat 1) r)))).
  cbn [bind]. eexists. reflexivity.
Qed.

(** Lines 30-49 run to their end on a window of at least two floats. *)
Lemma score_window_floats (cumulative : list float) (tg : float) (period : Z) :
  2 <= period <= sys_maxsize -> len cumulative = period ->
  exists s, score_window (floats cumulative) (PyFloat tg) period
            = Ok (s, PyFloat (fround1 tg)).
Proof.
  intros Hp Hlen. unfold score_window.
  rewrite daily_uniform_gain_floats by lia. cbn [bind].
  rewrite ideal_line_floats by lia. cbn [bind].
  destruct (deviation_sums_floats
              cumulative
              (map (fun i => fmul (Zfloat i) (fdiv tg (Zfloat (period - 1))))
                   (range period))
              tg period Hlen)
    as (td & mpd & -> & Htd & Hmpd).
  { rewrite len_map, len_range. lia. }
  cbn [bind].
  destruct (normalized_deviation_floats td mpd Htd) as (n & -> & Hn).
  { destruct Hmpd as [[-> _] | (f & -> & _)]; [ now left | right; now exists f ]. }
  cbn [bind].
  destruct (uniformity_score_floats n Hn) as (s & ->).
  cbn [bind]. now exists s.
Qed.

End Py_run.

(** ** [calculate] returns *)

Lemma py_index_defined {A : Type} (l : list A) (i : Z) :
  - len l <= i < len l -> exists a, py_index l i = Ok a /\ In a l.
Proof.
  intros Hi. unfold py_index.
  set (j := if i <? 0 then i + len l else i).
  assert (Hj : 0 <= j < len l) by (subst j; destruct (i <? 0) eqn:E;
    [ apply Z.ltb_lt in E | apply Z.ltb_ge in E ]; lia).
  replace (0 <=? j) with true by (symmetry; apply Z.leb_le; lia).
  replace (j <? len l) with true by (symmetry; apply Z.ltb_lt; lia).
  cbn [andb].
  destruct (nth_error l (Z.to_nat j)) as [a | ] eqn:Ea.
  - exists a. split; [ reflexivity | ]. eapply nth_error_In, Ea.
  - apply nth_error_None in Ea. unfold len in Hj. lia.
Qed.

(** The score is [0] or comes out of the two clamps of line 47. *)
Lemma calculate_score_shape {num : Type} `{PyNumber num}
      (prices : list num) (period : Z) (s g : num) :
  calculate prices period = Ok (s, g) ->
  s = of_int 0 \/ exists r, s = py_min (of_int 100) (py_max (of_int 0) r).
Proof.
  unfold calculate, score_window, uniformity_score.
  destruct (len prices <? period); [ intros [= <- _]; now left | ].
  destruct (py_index _ 0) as [b | e]; [ cbn [bind] | discriminate ].
  destruct (py_le b (of_int 0)); [ intros [= <- _]; now left | ].
  destruct (cumulative_pcts _ b) as [cumulative | e]; [ cbn [bind] | discriminate ].
  destruct (py_index cumulative (-1)) as [tg | e]; [ cbn [bind] | discriminate ].
  destruct (py_le tg (of_int 0)); [ intros [= <- _]; now left | ].
  destruct (py_truediv tg _) as [d | e]; [ cbn [bind] | discriminate ].
  destruct (ideal_line d period) as [ideal | e]; [ cbn [bind] | discriminate ].
  destruct (deviation_sums _ _ _ _) as [[td mpd] | e]; [ cbn [bind] | discriminate ].
  destruct (normalized_deviation td mpd) as [n | e]; [ cbn [bind] | discriminate ].
  destruct (math_sqrt _) as [r | e]; [ cbn [bind] | discriminate ].
  destruct (py_sub _ r) as [t | e]; [ cbn [bind] | discriminate ].
  destruct (py_mul _ t) as [raw | e]; [ cbn [bind] | discriminate ].
  intros [= <- _]. right. now exists (py_round1 raw).
Qed.

Module Py_total.
Import Py Py_domain Py_order Py_curve Float_facts Float_ops Py_run.

(** Line 47 clamps any number, a NaN included, into [[0, 100]]. *)
Lemma clamp_in_range (r : pynum) :
  py_le (of_int 0) (py_min (of_int 100) (py_max (of_int 0) r)) = true /\
  py_le (py_min (of_int 100) (py_max (of_int 0) r)) (of_int 100) = true.
Proof.
  unfold py_min, py_max. cbn [py_lt py_le of_int number].
  destruct (lt (PyInt 0) r) eqn:H0.
  - destruct (lt r (PyInt 100)) eqn:H100.
    + split; now apply lt_le.
    + split; reflexivity.
  - split; reflexivity.
Qed.

Lemma finite_not_le_0 (b : float) :
  is_finite b = true -> py_le (PyFloat b) (of_int 0) = false ->
  SFltb fzero b = true.
Proof.
  cbn [py_le of_int number]. rewrite le_float_0.
  destruct b as [s | s | | [ | ] m e]; cbn; congruence.
Qed.

(** With one price in the window the gain is not positive. *)
Lemma no_gain_on_one_price (b : float) :
  py_lt (of_int 0) (PyFloat b) = true ->
  py_lt (of_int 0) (PyFloat (fpct b b)) = false.
Proof.
  cbn [py_lt of_int number]. rewrite !lt_0_float. intros Hb.
  destruct b as [s | [ | ] | | [ | ] m e]; try discriminate Hb.
  - reflexivity.
  - now rewrite fpct_self.
Qed.

Lemma calculate_returns (prices : list float) (period : Z) :
  0 < period ->
  Forall (fun f => is_finite f = true) prices ->
  len prices <= sys_maxsize ->
  exists s g, calculate (floats prices) period = Ok (s, g).
Proof.
  intros Hpos Hfin Hmax.
  destruct (Z.lt_ge_cases (len prices) period) as [Hshort | Hlen].
  - exists (PyInt 0), (PyInt 0).
    apply (@calculate_short pynum number).
    unfold floats. now rewrite len_map.
  - destruct (py_index_defined prices (- period)) as (b & Hb & Hbin); [ lia | ].
    destruct (py_index_defined prices (-1)) as (last & Hlast & _); [ lia | ].
    assert (Hbfin : is_finite b = true)
      by (rewrite Forall_forall in Hfin; now apply Hfin).
    destruct (py_le (PyFloat b) (of_int 0)) eqn:Hb0.
    + exists (PyInt 0), (PyInt 0).
      apply (@calculate_bad_base pynum number _ period (PyFloat b)); trivial.
      * unfold floats. now rewrite len_map.
      * unfold floats. now rewrite py_index_map, Hb.
    + pose proof (finite_not_le_0 b Hbfin Hb0) as Hbpos.
      assert (Hnz : SFeqb b fzero = false).
      { apply positive_nonzero. cbn [py_lt of_int number].
        now rewrite lt_0_float. }
      rewrite (calculate_floats prices period b last); trivial.
      destruct (py_le (PyFloat (fpct b last)) (of_int 0)) eqn:Hgain.
      * eexists. eexists. reflexivity.
      * assert (Hp2 : 2 <= period).
        { destruct (Z.eq_dec period 1) as [-> | ]; [ | lia ].
          change (py_index prices (-1) = Ok b) in Hb.
          assert (last = b) by congruence. subst last.
          rewrite (fpct_self b Hbfin Hbpos) in Hgain. discriminate Hgain. }
        destruct (score_window_floats
                    (map (fpct b) (slice_from prices (- period)))
                    (fpct b last) period) as (s & ->).
        -- lia.
        -- rewrite len_map. now apply len_slice_from.
        -- eexists. eexists. reflexivity.
Qed.

End Py_total.

(** C5: on a list of finite floats and a positive period [calculate] always
    returns a pair: no index is out of range, no division is by zero (with
    [period = 1] the gain is [0.0] and line 28 returns before the division
    by [period - 1]), and [math.sqrt] gets no negative argument. *)
Theorem calculate_total (prices : list Py.float) (period : Z) :
  0 < period ->
  Forall (fun f => Py.is_finite f = true) prices ->
  len prices <= Py_domain.sys_maxsize ->
  exists s g, calculate (Py.floats prices) period = Ok (s, g) /\
              raises (calculate (Py.floats prices) period) = false.
Proof.
  intros Hpos Hfin Hmax.
  destruct (Py_total.calculate_returns prices period Hpos Hfin Hmax)
    as (s & g & Hcalc).
  exists s, g. split; [ exact Hcalc | now rewrite Hcalc ].
Qed.

Lemma calculate_total_witness :
  exists s g, calculate (Py.floats (Py.of_ints [7])) 1 = Ok (s, g) /\
              raises (calculate (Py.floats (Py.of_ints [7])) 1) = false.
Proof.
  apply (calculate_total (Py.of_ints [7]) 1).
  - lia.
  - repeat constructor.
  - vm_compute. discriminate.
Defined.

(** C3: whatever [calculate] returns has its score in [[0, 100]], and on a
    list of finite floats with a positive period it does return. *)
Theorem score_in_range (prices : list Py.float) (period : Z) :
  (forall s g, calculate (Py.floats prices) period = Ok (s, g) ->
               py_le (of_int 0) s = true /\ py_le s (of_int 100) = true) /\
  (0 < period ->
   Forall (fun f => Py.is_finite f = true) prices ->
   len prices <= Py_domain.sys_maxsize ->
   exists s g, calculate (Py.floats prices) period = Ok (s, g) /\
               py_le (of_int 0) s = true /\ py_le s (of_int 100) = true).
Proof.
  assert (Hrange : forall s g, calculate (Py.floats prices) period = Ok (s, g) ->
               py_le (of_int 0) s = true /\ py_le s (of_int 100) = true).
  { intros s g Hcalc.
    destruct (calculate_score_shape _ _ _ _ Hcalc) as [-> | (r & ->)].
    - split; reflexivity.
    - apply Py_total.clamp_in_range. }
  split; [ exact Hrange | ].
  intros Hpos Hfin Hmax.
  destruct (Py_total.calculate_returns prices period Hpos Hfin Hmax)
    as (s & g & Hcalc).
  exists s, g. split; [ exact Hcalc | exact (Hrange s g Hcalc) ].
Qed.

Lemma score_in_range_witness :
  exists s g,
    calculate (Py.floats (Py.of_ints scenario_doubling)) 3 = Ok (s, g) /\
    py_le (of_int 0) s = true /\ py_le s (of_int 100) = true.
Proof.
  apply (score_in_range (Py.of_ints scenario_doubling) 3).
  - lia.
  - repeat constructor.
  - vm_compute. discriminate.
Defined.

(** ** A window of one price *)

Lemma py_index_bounds {A : Type} (l : list A) (i : Z) (a : A) :
  py_index l i = Ok a -> - len l <= i < len l.
Proof.
  unfold py_index.
  destruct (i <? 0) eqn:Hi;
    [ apply Z.ltb_lt in Hi | apply Z.ltb_ge in Hi ];
    match goal with
    | |- context [ (0 <=? ?j) && (?j <? len l) ] =>
        destruct (0 <=? j) eqn:H0; [ apply Z.leb_le in H0 | discriminate ];
        destruct (j <? len l) eqn:H1; [ apply Z.ltb_lt in H1 | discriminate ]
    end; intros _; lia.
Qed.

(** C9: with [period = 1] and a list whose last price is a finite float, the
    result is [(0, 0)] when that price is [<= 0] and [(0, 0.0)] otherwise
    (the gain of a price over itself is [0.0], so line 28 returns before the
    division by [period - 1]); both equal [(0, 0.0)]. *)
Theorem calculate_period_one (prices : list Py.float) (last : Py.float) :
  py_index prices (-1) = Ok last ->
  Py.is_finite last = true ->
  calculate (Py.floats prices) 1
  = Ok (Py.PyInt 0,
        if py_le (Py.PyFloat last) (of_int 0) then Py.PyInt 0
        else Py.PyFloat Py.fzero) /\
  Py.pair_eqb (Py.PyInt 0,
               if py_le (Py.PyFloat last) (of_int 0) then Py.PyInt 0
               else Py.PyFloat Py.fzero)
              (Py.PyInt 0, Py.PyFloat Py.fzero) = true.
Proof.
  intros Hlast Hfin.
  pose proof (py_index_bounds prices (-1) last Hlast) as Hlen.
  destruct (py_le (Py.PyFloat last) (of_int 0)) eqn:Hle.
  - split; [ | reflexivity ].
    apply (@calculate_bad_base Py.pynum Py.number _ 1 (Py.PyFloat last));
      trivial; try lia.
    + unfold Py.floats. rewrite len_map. lia.
    + unfold Py.floats. change (- (1)) with (-1). now rewrite py_index_map, Hlast.
  - split; [ | reflexivity ].
    pose proof (Py_total.finite_not_le_0 last Hfin Hle) as Hpos.
    rewrite (Py_curve.calculate_floats prices 1 last last); trivial; try lia.
    + now rewrite (Float_ops.fpct_self last Hfin Hpos).
    + apply Py_curve.positive_nonzero. cbn [py_lt of_int Py.number].
      now rewrite Py_order.lt_0_float.
Qed.

Lemma calculate_period_one_witness :
  calculate (Py.floats (Py.of_ints [3; 5; 7])) 1
  = Ok (Py.PyInt 0, Py.PyFloat Py.fzero) /\
  Py.pair_eqb (Py.PyInt 0, Py.PyFloat Py.fzero)
              (Py.PyInt 0, Py.PyFloat Py.fzero) = true.
Proof.
  apply (calculate_period_one (Py.of_ints [3; 5; 7]) (Py.Zfloat 7));
    reflexivity.
Defined.

(** ** The scale of the normalization *)

Module Scale.
Import Py Py_domain.

(** In exact arithmetic. *)
Lemma scale_exact (prices : list R) (period : Z) (b total_gain : R)
      (cumulative : list R) :
  0 < period -> period <= len prices ->
  py_index prices (- period) = Ok b -> (0 < b)%R ->
  cumulative_pcts (slice_from prices (- period)) b = Ok cumulative ->
  py_index cumulative (-1) = Ok total_gain -> (0 < total_gain)%R ->
  2 <= period /\
  exists d ideal td mpd,
    py_truediv total_gain (of_int (period - 1)) = Ok d /\
    ideal_line d period = Ok ideal /\
    deviation_sums cumulative ideal total_gain period = Ok (td, mpd) /\
    mpd = (total_gain * IZR (period - 1))%R /\
    py_lt (of_int 0) mpd = true /\
    normalized_deviation td mpd = py_truediv td mpd.
Proof.
  intros Hpos Hle Hb Hb0 Hc Ht Ht0.
  rewrite (Exact_facts.cumulative_pcts_exact _ b) in Hc by lra.
  injection Hc as <-.
  rewrite py_index_map, (py_index_slice_last prices period Hpos Hle) in Ht.
  assert (Hp2 : 2 <= period).
  { destruct (Z.eq_dec period 1) as [-> | ]; [ exfalso | lia ].
    change (py_index prices (-1) = Ok b) in Hb. rewrite Hb in Ht.
    injection Ht as <-. lra. }
  split; [ exact Hp2 | ].
  assert (Hn1 : (0 < IZR (period - 1))%R) by (apply IZR_lt; lia).
  set (cumulative := map (fun p => ((p - b) / b * 100)%R)
                         (slice_from prices (- period))) in *.
  destruct (Exact_facts.deviation_sums_exact
              cumulative
              (map (fun i => (IZR i * (total_gain / IZR (period - 1)))%R)
                   (range period))
              total_gain period) as (td & mpd & Hsums & _ & Hmpd & _).
  { subst cumulative. rewrite len_map. now apply len_slice_from. }
  { rewrite len_map, len_range. lia. }
  replace (Z.max 0 (period - 1)) with (period - 1) in Hmpd by lia.
  assert (Hlt : py_lt (of_int 0) mpd = true).
  { apply Exact_facts.lt_true. rewrite Hmpd.
    now apply Rmult_lt_0_compat. }
  exists (total_gain / IZR (period - 1))%R,
    (map (fun i => (IZR i * (total_gain / IZR (period - 1)))%R) (range period)),
    td, mpd.
  repeat split; trivial.
  - apply Exact_facts.truediv_ok. lra.
  - apply Exact_facts.ideal_line_exact.
  - unfold normalized_deviation. now rewrite Hlt.
Qed.

(** On binary64 floats, where the scale is a sum of [period - 1] rounded
    additions of the total gain. *)
Lemma scale_binary64 (prices : list float) (period : Z) (b last : float) :
  0 < period -> period <= len prices -> len prices <= sys_maxsize ->
  py_index prices (- period) = Ok b ->
  py_index prices (-1) = Ok last ->
  py_lt (of_int 0) (PyFloat b) = true ->
  py_lt (of_int 0) (PyFloat (fpct b last)) = true ->
  2 <= period /\
  exists cumulative d ideal td mpd,
    cumulative_pcts (slice_from (floats prices) (- period)) (PyFloat b)
    = Ok cumulative /\
    py_index cumulative (-1) = Ok (PyFloat (fpct b last)) /\
    py_truediv (PyFloat (fpct b last)) (of_int (period - 1)) = Ok d /\
    ideal_line d period = Ok ideal /\
    deviation_sums cumulative ideal (PyFloat (fpct b last)) period
    = Ok (td, mpd) /\
    py_lt (of_int 0) mpd = true /\
    normalized_deviation td mpd = py_truediv td mpd.
Proof.
  intros Hpos Hle Hmax Hb Hlast Hb0 Hgain.
  assert (Hp2 : 2 <= period).
  { destruct (Z.eq_dec period 1) as [-> | ]; [ exfalso | lia ].
    change (py_index prices (-1) = Ok b) in Hb.
    assert (last = b) by congruence. subst last.
    rewrite (Py_total.no_gain_on_one_price b Hb0) in Hgain.
    discriminate Hgain. }
  split; [ exact Hp2 | ].
  assert (Htg : pos (fpct b last)).
  { apply Float_ops.fmul_pos. cbn [py_lt of_int number] in Hgain.
    now rewrite Py_order.lt_0_float in Hgain. }
  set (cumulative := map (fpct b) (slice_from prices (- period))).
  set (d := fdiv (fpct b last) (Zfloat (period - 1))).
  destruct (Py_run.deviation_sums_floats
              cumulative
              (map (fun i => fmul (Zfloat i) d) (range period))
              (fpct b last) period)
    as (td & mpd & Hsums & _ & [[_ Hone] | (f & -> & Hf)]); try lia.
  { subst cumulative. rewrite len_map. now apply len_slice_from. }
  { rewrite len_map, len_range. lia. }
  assert (Hlt : py_lt (of_int 0) (PyFloat f) = true).
  { cbn [py_lt of_int number]. rewrite Py_order.lt_0_float.
    apply Float_facts.pos_lt_0. auto. }
  exists (floats cumulative), (PyFloat d),
    (floats (map (fun i => fmul (Zfloat i) d) (range period))),
    td, (PyFloat f).
  repeat split; trivial.
  - unfold floats at 1. rewrite slice_from_map.
    apply Py_curve.cumulative_pcts_floats.
    now apply Py_curve.positive_nonzero.
  - subst cumulative. unfold floats.
    now rewrite !py_index_map, (py_index_slice_last prices period Hpos Hle), Hlast.
  - apply Py_run.daily_uniform_gain_floats. lia.
  - apply Py_run.ideal_line_floats. lia.
  - unfold normalized_deviation. now rewrite Hlt.
Qed.

End Scale.

(** C8: when [calculate] gets past its three guards (a positive period not
    above the length, a positive first price of the window, a positive total
    gain), the period is at least 2 and the test [max_possible_deviation > 0]
    of line 41 holds, so line 44 is not reached.  In exact arithmetic the
    scale is [total_gain * (period - 1)]; on binary64 floats it is the
    rounded sum of [period - 1] copies of the total gain, positive as well. *)
Theorem normalization_scale_positive :
  (forall (prices : list R) (period : Z) (b total_gain : R)
          (cumulative : list R),
      0 < period -> period <= len prices ->
      py_index prices (- period) = Ok b -> (0 < b)%R ->
      cumulative_pcts (slice_from prices (- period)) b = Ok cumulative ->
      py_index cumulative (-1) = Ok total_gain -> (0 < total_gain)%R ->
      2 <= period /\
      exists d ideal td mpd,
        py_truediv total_gain (of_int (period - 1)) = Ok d /\
        ideal_line d period = Ok ideal /\
        deviation_sums cumulative ideal total_gain period = Ok (td, mpd) /\
        mpd = (total_gain * IZR (period - 1))%R /\
        py_lt (of_int 0) mpd = true /\
        normalized_deviation td mpd = py_truediv td mpd) /\
  (forall (prices : list Py.float) (period : Z) (b last : Py.float),
      0 < period -> period <= len prices ->
      len prices <= Py_domain.sys_maxsize ->
      py_index prices (- period) = Ok b ->
      py_index prices (-1) = Ok last ->
      py_lt (of_int 0) (Py.PyFloat b) = true ->
      py_lt (of_int 0) (Py.PyFloat (Py_domain.fpct b last)) = true ->
      2 <= period /\
      exists cumulative d ideal td mpd,
        cumulative_pcts (slice_from (Py.floats prices) (- period)) (Py.PyFloat b)
        = Ok cumulative /\
        py_index cumulative (-1) = Ok (Py.PyFloat (Py_domain.fpct b last)) /\
        py_truediv (Py.PyFloat (Py_domain.fpct b last)) (of_int (period - 1))
        = Ok d /\
        ideal_line d period = Ok ideal /\
        deviation_sums cumulative ideal (Py.PyFloat (Py_domain.fpct b last)) period
        = Ok (td, mpd) /\
        py_lt (of_int 0) mpd = true /\
        normalized_deviation td mpd = py_truediv td mpd).
Proof. split; [ exact Scale.scale_exact | exact Scale.scale_binary64 ]. Qed.

Lemma normalization_scale_positive_witness :
  (2 <= 3 /\
   exists d ideal td mpd,
     py_truediv ((200 - 100) / 100 * 100)%R (of_int (3 - 1)) = Ok d /\
     ideal_line d 3 = Ok ideal /\
     deviation_sums (map (fun p => ((p - 100) / 100 * 100)%R) [100; 150; 200]%R)
                    ideal ((200 - 100) / 100 * 100)%R 3 = Ok (td, mpd) /\
     mpd = ((200 - 100) / 100 * 100 * IZR (3 - 1))%R /\
     py_lt (of_int 0) mpd = true /\
     normalized_deviation td mpd = py_truediv td mpd) /\
  (2 <= 3 /\
   exists cumulative d ideal td mpd,
     cumulative_pcts (slice_from (Py.floats (Py.of_ints scenario_doubling)) (- (3)))
                     (Py.PyFloat (Py.Zfloat 100)) = Ok cumulative /\
     py_index cumulative (-1)
     = Ok (Py.PyFloat (Py_domain.fpct (Py.Zfloat 100) (Py.Zfloat 400))) /\
     py_truediv (Py.PyFloat (Py_domain.fpct (Py.Zfloat 100) (Py.Zfloat 400)))
                (of_int (3 - 1)) = Ok d /\
     ideal_line d 3 = Ok ideal /\
     deviation_sums cumulative ideal
                    (Py.PyFloat (Py_domain.fpct (Py.Zfloat 100) (Py.Zfloat 400))) 3
     = Ok (td, mpd) /\
     py_lt (of_int 0) mpd = true /\
     normalized_deviation td mpd = py_truediv td mpd).
Proof.
  destruct normalization_scale_positive as [Hexact Hfloat].
  split.
  - apply (Hexact [100; 150; 200]%R 3 100%R).
    + lia.
    + vm_compute. discriminate.
    + reflexivity.
    + lra.
    + rewrite Exact_facts.cumulative_pcts_exact by lra. reflexivity.
    + reflexivity.
    + lra.
  - apply (Hfloat (Py.of_ints scenario_doubling) 3 (Py.Zfloat 100) (Py.Zfloat 400)).
    + lia.
    + vm_compute. discriminate.
    + vm_compute. discriminate.
    + reflexivity.
    + reflexivity.
    + reflexivity.
    + vm_compute. reflexivity.
Defined.

(** ** A float curve on the ideal line *)

Lemma Forall2_nth_error {A B : Type} (P : A -> B -> Prop)
      (l1 : list A) (l2 : list B) (k : nat) (a : A) (b : B) :
  Forall2 P l1 l2 -> nth_error l1 k = Some a -> nth_error l2 k = Some b ->
  P a b.
Proof.
  intros HP. revert k. induction HP as [ | x y l1 l2 Hxy _ IH]; intros k.
  - destruct k; discriminate.
  - destruct k as [ | k]; cbn [nth_error].
    + intros [= <-] [= <-]. exact Hxy.
    + apply IH.
Qed.

Module Py_line.
Import Py Py_domain Py_order Py_curve Float_facts Float_ops Py_run.

(** Two finite floats that compare equal have the difference [0.0]. *)
Lemma eq_difference (c l : float) :
  is_finite c = true -> SFeqb c l = true -> SFabs (fsub c l) = fzero.
Proof.
  intros Hc Heq.
  destruct c as [s1 | s1 | | s1 m1 e1]; try discriminate Hc;
    destruct l as [s2 | s2 | | s2 m2 e2]; try discriminate Heq;
    try (destruct s1; discriminate Heq); try (destruct s2; discriminate Heq).
  - destruct s1, s2; reflexivity.
  - assert (Hsame : s1 = s2 /\ e1 = e2 /\ m1 = m2).
    { unfold SFeqb, SFcompare in Heq.
      destruct s1, s2; try discriminate Heq;
        destruct (e1 ?= e2) eqn:He; try discriminate Heq;
        apply Z.compare_eq in He;
        destruct (Pos.compare_cont Eq m1 m2) eqn:Hm; try discriminate Heq;
        apply Pos.compare_eq in Hm; auto. }
    destruct Hsame as (-> & -> & ->).
    now rewrite fsub_self.
Qed.

Lemma deviation_sums_on_line (cumulative ideal : list float) (tg : float)
      (period : Z) :
  len cumulative = period -> len ideal = period -> 1 <= period ->
  Forall2 (fun c l => is_finite c = true /\ SFeqb c l = true) cumulative ideal ->
  exists mpd,
    deviation_sums (floats cumulative) (floats ideal) (PyFloat tg) period
    = Ok (PyFloat fzero, mpd) /\
    ((mpd = PyInt 0 /\ period <= 1) \/
     (exists f, mpd = PyFloat f /\ (pos tg -> pos f))).
Proof.
  intros Hc Hi Hp Hline. unfold deviation_sums, range.
  destruct (foldM_range
              (deviation_step (floats cumulative) (floats ideal) (PyFloat tg) period)
              (fun k acc =>
                 ((fst acc = PyInt 0 /\ k = 0%nat) \/ fst acc = PyFloat fzero) /\
                 scale_state tg period k (snd acc))
              (Z.to_nat period) 0%nat (of_int 0, of_int 0))
    as ([td mpd] & Hfold & Htd & Hmpd).
  - split; [ left; now split | ]. left. split; [ reflexivity | now left ].
  - intros k [td mpd] Hk [Htd Hmpd]. cbn [fst snd] in *.
    unfold len in Hc, Hi.
    destruct (nth_error cumulative k) as [c | ] eqn:Ec;
      [ | apply nth_error_None in Ec; lia ].
    destruct (nth_error ideal k) as [l | ] eqn:El;
      [ | apply nth_error_None in El; lia ].
    destruct (Forall2_nth_error _ _ _ k c l Hline Ec El) as [Hfin Heq].
    unfold deviation_step.
    rewrite (nth_error_floats _ _ _ Ec), (nth_error_floats _ _ _ El).
    cbn [bind].
    change (py_sub (PyFloat c) (PyFloat l)) with (Ok (PyFloat (fsub c l))).
    cbn [bind].
    change (py_abs (PyFloat (fsub c l))) with (PyFloat (SFabs (fsub c l))).
    rewrite (eq_difference c l Hfin Heq).
    assert (Hadd : py_add td (PyFloat fzero) = Ok (PyFloat fzero))
      by (destruct Htd as [[-> _] | ->]; reflexivity).
    rewrite Hadd. cbn [bind].
    destruct (add_scale tg period k mpd Hmpd) as (mpd' & -> & Hmpd').
    cbn [bind]. exists (PyFloat fzero, mpd'). split; [ reflexivity | ].
    split; [ now right | exact Hmpd' ].
  - cbn [fst snd] in *.
    destruct Htd as [[_ Hk] | ->]; [ lia | ].
    exists mpd. split; [ exact Hfold | ].
    destruct Hmpd as [[-> Hk] | Hf]; [ left | now right ].
    split; [ reflexivity | lia ].
Qed.

(** Lines 41-47 on a total deviation [0.0]. *)
Lemma score_of_zero_deviation (mpd : pynum) :
  mpd = PyInt 0 \/ (exists f, mpd = PyFloat f) ->
  n <- normalized_deviation (PyFloat fzero) mpd ;; uniformity_score n
  = Ok (PyInt 100).
Proof.
  intros [-> | (f & ->)]; unfold normalized_deviation.
  - reflexivity.
  - destruct (py_lt (of_int 0) (PyFloat f)) eqn:Hlt; [ | reflexivity ].
    pose proof (positive_nonzero f Hlt) as Hnz.
    cbn [py_lt of_int number] in Hlt. rewrite lt_0_float in Hlt.
    cbn [py_truediv number truediv to_float bind]. rewrite Hnz. cbn [bind].
    replace (fdiv fzero f) with fzero
      by (destruct f as [s | [ | ] | | [ | ] m e]; try discriminate Hlt;
          reflexivity).
    reflexivity.
Qed.

Lemma score_window_on_line (cumulative : list float) (tg : float) (period : Z) :
  2 <= period <= sys_maxsize -> len cumulative = period ->
  Forall2 (fun c l => is_finite c = true /\ SFeqb c l = true)
          cumulative
          (map (fun i => fmul (Zfloat i) (fdiv tg (Zfloat (period - 1))))
               (range period)) ->
  (exists mpd,
      deviation_sums
        (floats cumulative)
        (floats (map (fun i => fmul (Zfloat i) (fdiv tg (Zfloat (period - 1))))
                     (range period)))
        (PyFloat tg) period
      = Ok (PyFloat fzero, mpd)) /\
  score_window (floats cumulative) (PyFloat tg) period
  = Ok (PyInt 100, PyFloat (fround1 tg)).
Proof.
  intros Hp Hlen Hline.
  assert (Hideal : len (map (fun i => fmul (Zfloat i) (fdiv tg (Zfloat (period - 1))))
                            (range period)) = period)
    by (rewrite len_map, len_range; lia).
  destruct (deviation_sums_on_line cumulative _ tg period Hlen Hideal
                                   ltac:(lia) Hline)
    as (mpd & Hsums & Hmpd).
  split; [ now exists mpd | ].
  unfold score_window.
  rewrite daily_uniform_gain_floats by lia. cbn [bind].
  rewrite ideal_line_floats by lia. cbn [bind].
  rewrite Hsums. cbn [bind].
  pose proof (score_of_zero_deviation mpd) as Hscore.
  destruct (normalized_deviation (PyFloat fzero) mpd) as [n | e].
  - cbn [bind] in *. rewrite Hscore; [ reflexivity | ].
    destruct Hmpd as [[-> _] | (f & -> & _)]; [ now left | right; now exists f ].
  - cbn [bind] in Hscore. discriminate Hscore.
    destruct Hmpd as [[Hm _] | (f & Hm & _)]; [ now left | right; now exists f ].
Qed.

End Py_line.

(** ** A curve on the ideal line *)

Module On_line.
Import Py Py_domain.

Lemma on_line_exact (prices : list R) (period : Z) (b total_gain d : R)
      (cumulative ideal : list R) :
  0 < period -> period <= len prices ->
  py_index prices (- period) = Ok b -> (0 < b)%R ->
  cumulative_pcts (slice_from prices (- period)) b = Ok cumulative ->
  py_index cumulative (-1) = Ok total_gain -> (0 < total_gain)%R ->
  py_truediv total_gain (of_int (period - 1)) = Ok d ->
  ideal_line d period = Ok ideal ->
  cumulative = ideal ->
  (exists mpd,
      deviation_sums cumulative ideal total_gain period = Ok (0%R, mpd)) /\
  calculate prices period = Ok (100%R, py_round1 total_gain).
Proof.
  intros Hpos Hle Hb Hb0 Hc Ht Ht0 Hd Hideal Heq.
  assert (Hlen : len cumulative = period).
  { rewrite (Exact_facts.cumulative_pcts_exact _ b) in Hc by lra.
    injection Hc as <-. rewrite len_map. now apply len_slice_from. }
  destruct (Exact_facts.score_window_on_ideal_line
              cumulative ideal total_gain d period Hlen Hd Hideal Heq)
    as [Hdev Hscore].
  split; [ exact Hdev | ].
  rewrite (calculate_gain prices period b cumulative total_gain); trivial.
  + apply Exact_facts.le_false. exact Hb0.
  + apply Exact_facts.le_false. exact Ht0.
Qed.

Lemma on_line_binary64 (prices : list float) (period : Z) (b last : float) :
  0 < period -> period <= len prices -> len prices <= sys_maxsize ->
  py_index prices (- period) = Ok b ->
  py_index prices (-1) = Ok last ->
  py_lt (of_int 0) (PyFloat b) = true ->
  py_lt (of_int 0) (PyFloat (fpct b last)) = true ->
  Forall2 (fun c l => is_finite c = true /\ SFeqb c l = true)
          (map (fpct b) (slice_from prices (- period)))
          (map (fun i => fmul (Zfloat i)
                              (fdiv (fpct b last) (Zfloat (period - 1))))
               (range period)) ->
  (exists mpd,
      deviation_sums
        (floats (map (fpct b) (slice_from prices (- period))))
        (floats (map (fun i => fmul (Zfloat i)
                                    (fdiv (fpct b last) (Zfloat (period - 1))))
                     (range period)))
        (PyFloat (fpct b last)) period
      = Ok (PyFloat fzero, mpd)) /\
  calculate (floats prices) period
  = Ok (PyInt 100, py_round1 (PyFloat (fpct b last))).
Proof.
  intros Hpos Hle Hmax Hb Hlast Hb0 Hgain Hline.
  destruct (Scale.scale_binary64 prices period b last Hpos Hle Hmax Hb Hlast Hb0 Hgain)
    as [Hp2 _].
  destruct (Py_line.score_window_on_line
              (map (fpct b) (slice_from prices (- period)))
              (fpct b last) period) as [Hdev Hscore]; trivial; try lia.
  { rewrite len_map. now apply len_slice_from. }
  split; [ exact Hdev | ].
  rewrite (Py_curve.calculate_floats prices period b last); trivial.
  - pose proof (Py_order.lt_not_le _ _ Hgain) as Hnot.
    change (py_le (PyFloat (fpct b last)) (of_int 0) = false) in Hnot.
    now rewrite Hnot.
  - now apply Py_curve.positive_not_le.
  - now apply Py_curve.positive_nonzero.
Qed.

End On_line.

(** C4: on the thirty prices 100, 102, ..., 158 with period 30 the result is
    [(100, 58.0)], and [100 == 100.0]; and whenever the cumulative curve of
    the window is the ideal line at every index and the total gain is
    positive, the total deviation is 0 and the score is 100, in exact
    arithmetic and on binary64 floats (there for a curve of finite values). *)
Theorem linear_scenario_scores_100 :
  (calculate (Py.floats (Py.of_ints scenario_linear)) 30
   = Ok (Py.PyInt 100, Py.PyFloat (Py.Zfloat 58)) /\
   Py.eqb (Py.PyInt 100) (Py.PyFloat (Py.Zfloat 100)) = true) /\
  (forall (prices : list R) (period : Z) (b total_gain d : R)
          (cumulative ideal : list R),
      0 < period -> period <= len prices ->
      py_index prices (- period) = Ok b -> (0 < b)%R ->
      cumulative_pcts (slice_from prices (- period)) b = Ok cumulative ->
      py_index cumulative (-1) = Ok total_gain -> (0 < total_gain)%R ->
      py_truediv total_gain (of_int (period - 1)) = Ok d ->
      ideal_line d period = Ok ideal ->
      cumulative = ideal ->
      (exists mpd,
          deviation_sums cumulative ideal total_gain period = Ok (0%R, mpd)) /\
      calculate prices period = Ok (100%R, py_round1 total_gain)) /\
  (forall (prices : list Py.float) (period : Z) (b last : Py.float),
      0 < period -> period <= len prices ->
      len prices <= Py_domain.sys_maxsize ->
      py_index prices (- period) = Ok b ->
      py_index prices (-1) = Ok last ->
      py_lt (of_int 0) (Py.PyFloat b) = true ->
      py_lt (of_int 0) (Py.PyFloat (Py_domain.fpct b last)) = true ->
      Forall2 (fun c l => Py.is_finite c = true /\ SFeqb c l = true)
              (map (Py_domain.fpct b) (slice_from prices (- period)))
              (map (fun i => Py.fmul (Py.Zfloat i)
                               (Py.fdiv (Py_domain.fpct b last)
                                        (Py.Zfloat (period - 1))))
                   (range period)) ->
      (exists mpd,
          deviation_sums
            (Py.floats (map (Py_domain.fpct b) (slice_from prices (- period))))
            (Py.floats (map (fun i => Py.fmul (Py.Zfloat i)
                                        (Py.fdiv (Py_domain.fpct b last)
                                                 (Py.Zfloat (period - 1))))
                            (range period)))
            (Py.PyFloat (Py_domain.fpct b last)) period
          = Ok (Py.PyFloat Py.fzero, mpd)) /\
      calculate (Py.floats prices) period
      = Ok (Py.PyInt 100, py_round1 (Py.PyFloat (Py_domain.fpct b last)))).
Proof.
  split; [ | split ].
  - split; vm_compute; reflexivity.
  - exact On_line.on_line_exact.
  - exact On_line.on_line_binary64.
Qed.

Lemma linear_scenario_scores_100_witness :
  calculate [100; 150; 200]%R 3
  = Ok (100%R, py_round1 ((200 - 100) / 100 * 100)%R) /\
  calculate (Py.floats (Py.of_ints [100; 150; 200])) 3
  = Ok (Py.PyInt 100, Py.PyFloat (Py.Zfloat 100)).
Proof.
  destruct linear_scenario_scores_100 as (_ & Hexact & Hfloat).
  split.
  - assert (Hd : (IZR (3 - 1) <> 0)%R) by (change (3 - 1) with 2; lra).
    assert (Hb : (100 <> 0)%R) by lra.
    destruct (Hexact [100; 150; 200]%R 3 100%R ((200 - 100) / 100 * 100)%R
                     ((200 - 100) / 100 * 100 / IZR (3 - 1))%R
                     [((100 - 100) / 100 * 100)%R; ((150 - 100) / 100 * 100)%R;
                      ((200 - 100) / 100 * 100)%R]
                     [(IZR 0 * ((200 - 100) / 100 * 100 / IZR (3 - 1)))%R;
                      (IZR 1 * ((200 - 100) / 100 * 100 / IZR (3 - 1)))%R;
                      (IZR 2 * ((200 - 100) / 100 * 100 / IZR (3 - 1)))%R])
      as [_ Hcalc].
    + lia.
    + vm_compute. discriminate.
    + reflexivity.
    + lra.
    + rewrite (Exact_facts.cumulative_pcts_exact _ 100%R Hb). reflexivity.
    + reflexivity.
    + lra.
    + apply (Exact_facts.truediv_ok _ _ Hd).
    + rewrite Exact_facts.ideal_line_exact. reflexivity.
    + change (3 - 1) with 2.
      f_equal; [ lra | f_equal; [ lra | f_equal; lra ] ].
    + exact Hcalc.
  - destruct (Hfloat (Py.of_ints [100; 150; 200]) 3 (Py.Zfloat 100) (Py.Zfloat 200))
      as [_ Hcalc].
    + lia.
    + vm_compute. discriminate.
    + vm_compute. discriminate.
    + reflexivity.
    + reflexivity.
    + reflexivity.
    + vm_compute. reflexivity.
    + vm_compute. repeat constructor.
    + exact Hcalc.
Defined.

(** ** More on the order of Python numbers *)

Module Py_order2.
Import Py Py_order Py2.

Lemma lt_asym (x y : pynum) : lt x y = true -> lt y x = false.
Proof.
  unfold lt. rewrite (compare_antisym x y).
  destruct (compare x y) as [[ | | ] | ]; cbn; congruence.
Qed.

(** A number that is not a NaN is [<= 0] or [> 0]. *)
Lemma not_nan_total (x : pynum) :
  x <> PyFloat S754_nan -> le x (PyInt 0) = negb (lt (PyInt 0) x).
Proof.
  intros Hx. unfold le, lt. rewrite (compare_antisym x (PyInt 0)).
  destruct (compare x (PyInt 0)) as [[ | | ] | ] eqn:Hc; try reflexivity.
  exfalso. apply Hx.
  destruct x as [z | [s | s | | s m e]]; try discriminate Hc; reflexivity.
Qed.

(** What is at least an int is at least every smaller int. *)
Lemma le_int_mono (a b : Z) (x : pynum) :
  le (PyInt a) x = true -> b <= a -> le (PyInt b) x = true.
Proof.
  intros Ha Hba. destruct x as [z | f].
  - unfold le in *. cbn [compare] in *.
    destruct (Z.compare_spec a z); try discriminate Ha;
      destruct (Z.compare_spec b z); try reflexivity; lia.
  - unfold le in *. cbn [compare] in *.
    destruct f as [s | s | | s m e]; cbn [compare_float_int option_map] in *;
      try exact Ha.
    + destruct (Z.compare_spec 0 a); try discriminate Ha;
        destruct (Z.compare_spec 0 b); try reflexivity; lia.
    + destruct (0 <=? e).
      * destruct (Z.compare_spec (cond_Zopp s (Z.pos m * 2 ^ e)) a);
          try discriminate Ha;
          destruct (Z.compare_spec (cond_Zopp s (Z.pos m * 2 ^ e)) b);
          try reflexivity; lia.
      * assert (Hp : 0 <= 2 ^ (- e)) by (apply Z.pow_nonneg; lia).
        assert (Hm : b * 2 ^ (- e) <= a * 2 ^ (- e))
          by (apply Z.mul_le_mono_nonneg_r; lia).
        destruct (Z.compare_spec (cond_Zopp s (Z.pos m)) (a * 2 ^ (- e)));
          try discriminate Ha;
          destruct (Z.compare_spec (cond_Zopp s (Z.pos m)) (b * 2 ^ (- e)));
          try reflexivity; lia.
Qed.

(** A number equal to [0] is not above a non-negative int. *)
Lemma zero_not_above (n : Z) (x : pynum) :
  0 <= n -> eqb x (PyInt 0) = true -> lt (PyInt n) x = false.
Proof.
  intros Hn Hx. unfold eqb, lt in *. destruct x as [z | f]; cbn [compare] in *.
  - destruct (Z.compare_spec z 0); try discriminate Hx. subst z.
    destruct (Z.compare_spec n 0); try reflexivity; lia.
  - rewrite compare_float_0 in Hx.
    destruct f as [s | s | | s m e]; try discriminate Hx;
      try (destruct s; discriminate Hx).
    cbn [compare_float_int option_map].
    destruct (Z.compare_spec 0 n); try reflexivity; lia.
Qed.

(** The same two facts on the operations of the interface. *)
Lemma py_zero_not_above (n : Z) (x : pynum) :
  0 <= n -> py_eq x (of_int 0) = true -> py_lt (of_int n) x = false.
Proof. apply zero_not_above. Qed.

Lemma py_le_int_mono (a b : Z) (x : pynum) :
  py_le (of_int a) x = true -> b <= a -> py_le (of_int b) x = true.
Proof. apply le_int_mono. Qed.

End Py_order2.

(** ** More on [calculate] *)

(** X1: [calculate] reads only the last [period] prices: older prices in
    front of the window do not change the result. *)
Theorem calculate_reads_last_period {num : Type} `{PyNumber num}
        (older window : list num) (period : Z) :
  0 < period -> len window = period ->
  calculate (older ++ window) period = calculate window period.
Proof. apply calculate_suffix. Qed.

Lemma calculate_reads_last_period_witness :
  calculate (Py.floats (Py.of_ints [7; 9]) ++ Py.floats (Py.of_ints scenario_doubling)) 3
  = calculate (Py.floats (Py.of_ints scenario_doubling)) 3.
Proof.
  apply (calculate_reads_last_period
           (Py.floats (Py.of_ints [7; 9])) (Py.floats (Py.of_ints scenario_doubling)) 3).
  - lia.
  - reflexivity.
Defined.

(** X2: with a period that is not positive and a list of at most [-period]
    prices (an empty list when the period is 0), the window is empty and
    line 15 raises IndexError. *)
Theorem calculate_nonpositive_period {num : Type} `{PyNumber num}
        (prices : list num) (period : Z) :
  period <= 0 -> len prices <= - period ->
  calculate prices period = Raise IndexError.
Proof.
  intros Hp Hlen. unfold calculate.
  assert (H0 : 0 <= len prices) by (unfold len; lia).
  replace (len prices <? period) with false by (symmetry; apply Z.ltb_ge; lia).
  assert (Hslice : slice_from prices (- period) = []).
  { unfold slice_from.
    replace (- period <? 0) with false by (symmetry; apply Z.ltb_ge; lia).
    replace (Z.min (- period) (len prices)) with (len prices) by lia.
    unfold len. rewrite Nat2Z.id. apply skipn_all. }
  rewrite Hslice. reflexivity.
Qed.

Lemma calculate_nonpositive_period_witness :
  calculate (Py.floats []) 0 = Raise IndexError.
Proof.
  apply (calculate_nonpositive_period (Py.floats []) 0).
  - lia.
  - vm_compute. discriminate.
Defined.

Lemma slice_last_one {A : Type} (l : list A) (a : A) :
  py_index l (-1) = Ok a -> slice_from l (-1) = [a].
Proof.
  intros Ha.
  pose proof (py_index_bounds l (-1) a Ha) as Hlen.
  pose proof (len_slice_from l 1 ltac:(lia) ltac:(lia)) as Hone.
  pose proof (py_index_slice_last l 1 ltac:(lia) ltac:(lia)) as Hlast.
  change (- (1)) with (-1) in *. rewrite Ha in Hlast.
  destruct (slice_from l (-1)) as [ | x [ | y t]].
  - discriminate Hone.
  - cbv in Hlast. congruence.
  - unfold len in Hone. cbn [List.length] in Hone. lia.
Qed.

(** X3: with [period = 1] and a last price that is a NaN or [+inf], both
    guards are passed (no comparison with a NaN holds) and the division by
    [period - 1] on line 30 raises ZeroDivisionError. *)
Theorem calculate_period_one_not_finite (prices : list Py.float) (last : Py.float) :
  py_index prices (-1) = Ok last ->
  last = S754_nan \/ last = S754_infinity false ->
  calculate (Py.floats prices) 1 = Raise ZeroDivisionError.
Proof.
  intros Hlast Hnf. unfold calculate.
  pose proof (py_index_bounds prices (-1) last Hlast) as Hlen.
  replace (len (Py.floats prices) <? 1) with false
    by (symmetry; apply Z.ltb_ge; unfold Py.floats; rewrite len_map; lia).
  change (- (1)) with (-1).
  unfold Py.floats at 1 2. rewrite slice_from_map, (slice_last_one prices last Hlast).
  destruct Hnf as [-> | ->]; reflexivity.
Qed.

Lemma calculate_period_one_not_finite_witness :
  calculate (Py.floats [Py.Zfloat 5; S754_nan]) 1 = Raise ZeroDivisionError.
Proof.
  apply (calculate_period_one_not_finite [Py.Zfloat 5; S754_nan] S754_nan).
  - reflexivity.
  - now left.
Defined.

(** X4: in exact arithmetic a window of two prices, the first positive and
    the second larger, always scores 100: its curve has only the two end
    points of the ideal line. *)
Theorem two_prices_score_100 (older : list R) (b p : R) :
  (0 < b)%R -> (b < p)%R ->
  calculate (older ++ [b; p]) 2
  = Ok (100%R, py_round1 ((p - b) / b * 100)%R).
Proof.
  intros Hb Hp.
  rewrite calculate_suffix by (try reflexivity; lia).
  set (tg := ((p - b) / b * 100)%R).
  assert (Htg : (0 < tg)%R).
  { subst tg. apply Rmult_lt_0_compat; [ | lra ].
    apply Rdiv_lt_0_compat; lra. }
  set (cumulative := [((b - b) / b * 100)%R; tg]).
  assert (Hc : cumulative_pcts (slice_from [b; p] (- (2))) b = Ok cumulative).
  { rewrite Exact_facts.cumulative_pcts_exact by lra. reflexivity. }
  destruct (Exact_facts.score_window_on_ideal_line
              cumulative cumulative tg (tg / IZR (2 - 1))%R 2)
    as [_ Hscore]; trivial.
  - apply Exact_facts.truediv_ok. change (2 - 1) with 1. lra.
  - rewrite Exact_facts.ideal_line_exact. subst cumulative.
    change (2 - 1) with 1. change (range 2) with [0; 1]. cbn [map].
    f_equal. f_equal; [ field; lra | ]. f_equal. field.
  - rewrite (calculate_gain [b; p] 2 b cumulative tg); trivial; try lia.
    + vm_compute. discriminate.
    + apply Exact_facts.le_false. exact Hb.
    + apply Exact_facts.le_false. exact Htg.
Qed.

Lemma two_prices_score_100_witness :
  calculate ([50; 60] ++ [100; 130])%R 2
  = Ok (100%R, py_round1 ((130 - 100) / 100 * 100)%R).
Proof. apply (two_prices_score_100 [50; 60]%R 100%R 130%R); lra. Defined.

(** ** The gain filter on floats *)

Module Gains.
Import Py Py_domain Py2.

Lemma py_index_floats (prices : list float) (i : Z) (p : float) :
  py_index prices i = Ok p -> py_index (floats prices) i = Ok (PyFloat p).
Proof. intros Hp. unfold floats. now rewrite py_index_map, Hp. Qed.

Lemma py_index_whole {A : Type} (l : list A) (n : Z) :
  len l = n -> 0 < n ->
  py_index l (- n) = py_index l 0 /\ py_index l (n - 1) = py_index l (-1).
Proof.
  intros Hlen Hn. unfold py_index. rewrite Hlen.
  replace (- n <? 0) with true by (symmetry; apply Z.ltb_lt; lia).
  replace (n - 1 <? 0) with false by (symmetry; apply Z.ltb_ge; lia).
  replace (- n + n) with 0 by lia.
  replace (-1 + n) with (n - 1) by lia.
  split; reflexivity.
Qed.

Lemma zero_le_0 (b : float) :
  SFeqb b fzero = true -> py_le (PyFloat b) (of_int 0) = true.
Proof.
  cbn [py_le of_int number]. rewrite Py_order.le_float_0.
  unfold SFeqb, SFleb. now destruct (SFcompare b fzero) as [[ | | ] | ].
Qed.

(** Lines 50-71 on floats, with a first price that is not zero. *)
Lemma gains_of_floats (prices : list float) (b p6 p29 : float) :
  py_index prices 0 = Ok b -> py_index prices 6 = Ok p6 ->
  py_index prices 29 = Ok p29 -> SFeqb b fzero = false ->
  calculate_gains_from_prices (floats prices)
  = Ok (Some [("7d", PyFloat (fround2 (fpct b p6)));
              ("30d", PyFloat (fround2 (fpct b p29)))]%string).
Proof.
  intros Hb H6 H29 Hnz.
  pose proof (py_index_bounds prices 29 p29 H29) as Hlen.
  unfold calculate_gains_from_prices.
  assert (Hl : len (floats prices) = len prices) by (unfold floats; apply len_map).
  rewrite Hl.
  replace (len prices <? 30) with false by (symmetry; apply Z.ltb_ge; lia).
  replace (7 <=? len prices) with true by (symmetry; apply Z.leb_le; lia).
  replace (30 <=? len prices) with true by (symmetry; apply Z.leb_le; lia).
  rewrite (py_index_floats _ _ _ Hb). cbn [bind].
  rewrite (py_index_floats _ _ _ H6). cbn [bind].
  rewrite (Py_curve.pct_change_float b p6 Hnz). cbn [bind].
  rewrite (py_index_floats _ _ _ H29). cbn [bind].
  rewrite (Py_curve.pct_change_float b p29 Hnz). cbn [bind].
  reflexivity.
Qed.

(** The gain [calculate] returns on a window of at least two floats with a
    positive first price. *)
Lemma window_gain (prices : list float) (period : Z) (b last : float) :
  2 <= period -> period <= len prices -> period <= sys_maxsize ->
  py_index prices (- period) = Ok b ->
  py_index prices (-1) = Ok last ->
  py_lt (of_int 0) (PyFloat b) = true ->
  exists s, calculate (floats prices) period
            = Ok (s, PyFloat (fround1 (fpct b last))).
Proof.
  intros Hp Hle Hmax Hb Hlast Hb0.
  rewrite (Py_curve.calculate_floats prices period b last); trivial; try lia.
  - destruct (py_le (PyFloat (fpct b last)) (of_int 0)).
    + now exists (PyInt 0).
    + apply Py_run.score_window_floats; [ lia | ].
      rewrite len_map. apply len_slice_from; lia.
  - now apply Py_curve.positive_not_le.
  - now apply Py_curve.positive_nonzero.
Qed.

End Gains.

(** X5: [calculate_gains_from_prices] returns [None] for fewer than 30
    prices; for 30 or more floats whose first is not zero it returns a
    dictionary with exactly the keys '7d' and '30d', bound to the change
    from [prices[0]] to [prices[6]] and to [prices[29]], in percent,
    rounded to two decimals (the branches of lines 62 and 69 that store 0
    are not taken). *)
Theorem gains_from_prices (prices : list Py.float) :
  (len prices < 30 ->
   calculate_gains_from_prices (Py.floats prices) = Ok None) /\
  (forall b p6 p29 : Py.float,
      py_index prices 0 = Ok b -> py_index prices 6 = Ok p6 ->
      py_index prices 29 = Ok p29 -> SFeqb b Py.fzero = false ->
      calculate_gains_from_prices (Py.floats prices)
      = Ok (Some [("7d", Py.PyFloat (Py2.fround2 (Py_domain.fpct b p6)));
                  ("30d", Py.PyFloat (Py2.fround2 (Py_domain.fpct b p29)))]%string)).
Proof.
  split.
  - intros Hshort. unfold calculate_gains_from_prices.
    unfold Py.floats. rewrite len_map.
    now replace (len prices <? 30) with true by (symmetry; apply Z.ltb_lt; lia).
  - apply Gains.gains_of_floats.
Qed.

Lemma gains_from_prices_witness :
  calculate_gains_from_prices (Py.floats (Py.of_ints scenario_linear))
  = Ok (Some [("7d", Py.PyFloat (Py.Zfloat 12));
              ("30d", Py.PyFloat (Py.Zfloat 58))]%string).
Proof.
  destruct (gains_from_prices (Py.of_ints scenario_linear)) as [_ Hlong].
  apply (Hlong (Py.Zfloat 100) (Py.Zfloat 112) (Py.Zfloat 158)); reflexivity.
Defined.

(** X6: with 30 or more floats of which the first is [0.0] or [-0.0],
    [calculate_gains_from_prices] raises ZeroDivisionError on line 59: it
    has no guard on the base price, where [calculate] on the same 30 prices
    returns [(0, 0)]. *)
Theorem gains_zero_base (prices : list Py.float) (b : Py.float) :
  30 <= len prices -> py_index prices 0 = Ok b -> SFeqb b Py.fzero = true ->
  calculate_gains_from_prices (Py.floats prices) = Raise ZeroDivisionError /\
  (len prices = 30 ->
   calculate (Py.floats prices) 30 = Ok (Py.PyInt 0, Py.PyInt 0)).
Proof.
  intros Hlen Hb Hz. split.
  - destruct (py_index_defined prices 6) as (p6 & H6 & _); [ lia | ].
    unfold calculate_gains_from_prices.
    assert (Hl : len (Py.floats prices) = len prices)
      by (unfold Py.floats; apply len_map).
    rewrite Hl.
    replace (len prices <? 30) with false by (symmetry; apply Z.ltb_ge; lia).
    replace (7 <=? len prices) with true by (symmetry; apply Z.leb_le; lia).
    rewrite (Gains.py_index_floats _ _ _ Hb). cbn [bind].
    rewrite (Gains.py_index_floats _ _ _ H6). cbn [bind].
    unfold pct_change. cbn. rewrite Hz. reflexivity.
  - intros H30.
    destruct (Gains.py_index_whole prices 30 H30 ltac:(lia)) as [Hfront _].
    apply (@calculate_bad_base Py.pynum Py.number _ 30 (Py.PyFloat b)); try lia.
    + unfold Py.floats. rewrite len_map. lia.
    + apply Gains.py_index_floats. now rewrite Hfront.
    + now apply Gains.zero_le_0.
Qed.

Lemma gains_zero_base_witness :
  calculate_gains_from_prices (Py.floats (Py.of_ints (0 :: repeat 10 29)))
  = Raise ZeroDivisionError /\
  (len (Py.of_ints (0 :: repeat 10 29)) = 30 ->
   calculate (Py.floats (Py.of_ints (0 :: repeat 10 29))) 30
   = Ok (Py.PyInt 0, Py.PyInt 0)).
Proof.
  apply (gains_zero_base (Py.of_ints (0 :: repeat 10 29)) (Py.Zfloat 0)).
  - vm_compute. discriminate.
  - reflexivity.
  - reflexivity.
Defined.

(** X7: on exactly 30 floats with a positive first price, the '30d' gain of
    [calculate_gains_from_prices] and the gain [calculate] returns with
    period 30 are two roundings, to two decimals and to one, of the same
    float: the change from [prices[0]] to [prices[29]] in percent. *)
Theorem gain_30d_is_window_gain (prices : list Py.float) (b last : Py.float) :
  len prices = 30 ->
  py_index prices 0 = Ok b -> py_index prices 29 = Ok last ->
  py_lt (of_int 0) (Py.PyFloat b) = true ->
  (exists gains,
      calculate_gains_from_prices (Py.floats prices) = Ok (Some gains) /\
      dict_lookup gains "30d"
      = Some (py_round2 (Py.PyFloat (Py_domain.fpct b last)))) /\
  (exists s,
      calculate (Py.floats prices) 30
      = Ok (s, py_round1 (Py.PyFloat (Py_domain.fpct b last)))).
Proof.
  intros Hlen Hb Hlast Hb0.
  destruct (Gains.py_index_whole prices 30 Hlen ltac:(lia)) as [Hfront Hback].
  split.
  - destruct (py_index_defined prices 6) as (p6 & H6 & _); [ lia | ].
    eexists. split.
    + apply (Gains.gains_of_floats prices b p6 last); trivial.
      now apply Py_curve.positive_nonzero.
    + reflexivity.
  - apply Gains.window_gain; trivial; try lia.
    + vm_compute. discriminate.
    + now rewrite Hfront.
    + change (30 - 1) with 29 in Hback. now rewrite <- Hback.
Qed.

Lemma gain_30d_is_window_gain_witness :
  (exists gains,
      calculate_gains_from_prices (Py.floats (Py.of_ints scenario_linear))
      = Ok (Some gains) /\
      dict_lookup gains "30d" = Some (Py.PyFloat (Py.Zfloat 58))) /\
  (exists s,
      calculate (Py.floats (Py.of_ints scenario_linear)) 30
      = Ok (s, Py.PyFloat (Py.Zfloat 58))).
Proof.
  apply (gain_30d_is_window_gain (Py.of_ints scenario_linear)
                                 (Py.Zfloat 100) (Py.Zfloat 158));
    reflexivity.
Defined.

(** ** The tests of the gain filter *)

(** X9: on gains that are numbers, [check_gain_requirements] returns
    [(True, {'7d': g7, '30d': g30})] when [g7 > 7] and [g30 > 30] and
    [(False, None)] otherwise, a missing key counting as 0: the test for
    zero on line 28 changes nothing.  When one of the two gains is a string
    or [None] it returns [(False, None)]. *)
Theorem check_gain_requirements_thresholds (gains : dict (pyval Py.pynum)) :
  (forall x y : Py.pynum,
      dict_get gains "7d" (VNum (of_int 0)) = VNum x ->
      dict_get gains "30d" (VNum (of_int 0)) = VNum y ->
      check_gain_requirements gains
      = if py_lt (of_int 7) x && py_lt (of_int 30) y
        then (true, Some [("7d", VNum x); ("30d", VNum y)]%string)
        else (false, None)) /\
  ((forall x, dict_get gains "7d" (VNum (of_int 0)) <> VNum x) \/
   (forall y, dict_get gains "30d" (VNum (of_int 0)) <> VNum y) ->
   check_gain_requirements gains = (false, None)).
Proof.
  split.
  - intros x y H7 H30. unfold check_gain_requirements.
    rewrite H7, H30. cbn [val_is_zero val_gt].
    destruct (py_eq x (of_int 0)) eqn:Ex.
    + cbn [orb]. now rewrite (Py_order2.py_zero_not_above 7 x ltac:(lia) Ex).
    + cbn [orb]. destruct (py_eq y (of_int 0)) eqn:Ey.
      * rewrite (Py_order2.py_zero_not_above 30 y ltac:(lia) Ey).
        now rewrite andb_false_r.
      * destruct (py_lt (of_int 7) x); [ | reflexivity ].
        now destruct (py_lt (of_int 30) y).
  - intros Hnot. unfold check_gain_requirements.
    destruct (dict_get gains "7d" (VNum (of_int 0))) as [x | s | ];
      destruct (dict_get gains "30d" (VNum (of_int 0))) as [y | t | ];
      cbn [val_is_zero val_gt orb];
      try (destruct (py_eq x (of_int 0)); cbn [orb]; try reflexivity;
           now destruct (py_lt (of_int 7) x));
      try (destruct (py_eq y (of_int 0)); reflexivity);
      try reflexivity.
    exfalso. destruct Hnot as [Hn | Hn]; [ apply (Hn x) | apply (Hn y) ];
      reflexivity.
Qed.

Lemma check_gain_requirements_thresholds_witness :
  check_gain_requirements
    [("7d", VNum (Py.PyFloat (Py.Zfloat 10)));
     ("30d", VNum (Py.PyFloat (Py.Zfloat 40)))]%string
  = (true, Some [("7d", VNum (Py.PyFloat (Py.Zfloat 10)));
                 ("30d", VNum (Py.PyFloat (Py.Zfloat 40)))]%string) /\
  check_gain_requirements
    [("7d", VNum (Py.PyFloat (Py.Zfloat 10))); ("30d", VNone)]%string
  = (false, None).
Proof.
  split.
  - apply (proj1 (check_gain_requirements_thresholds
                    [("7d", VNum (Py.PyFloat (Py.Zfloat 10)));
                     ("30d", VNum (Py.PyFloat (Py.Zfloat 40)))]%string)
                 (Py.PyFloat (Py.Zfloat 10)) (Py.PyFloat (Py.Zfloat 40)));
      reflexivity.
  - apply (proj2 (check_gain_requirements_thresholds
                    [("7d", VNum (Py.PyFloat (Py.Zfloat 10)));
                     ("30d", VNone)]%string)).
    right. intros y. discriminate.
Defined.

(** X10: whenever the test that [run_scanner] applies itself on line 219,
    [gains['7d'] > 7 and gains['30d'] > 30], does not raise, its value is
    the boolean [check_gain_requirements] returns on the same gains. *)
Theorem inline_gain_test_agrees (gains : dict (pyval Py.pynum)) (b : bool) :
  inline_gain_test gains = Some b ->
  fst (check_gain_requirements gains) = b.
Proof.
  unfold inline_gain_test, check_gain_requirements, dict_get.
  destruct (dict_lookup gains "7d") as [[x | s | ] | ]; try discriminate.
  cbn [val_gt val_is_zero].
  destruct (py_eq x (of_int 0)) eqn:Ex.
  - rewrite (Py_order2.py_zero_not_above 7 x ltac:(lia) Ex).
    intros [= <-]. reflexivity.
  - cbn [orb]. destruct (py_lt (of_int 7) x).
    + destruct (dict_lookup gains "30d") as [[y | t | ] | ]; try discriminate.
      cbn [val_gt val_is_zero]. intros Hsome.
      assert (Hb : py_lt (of_int 30) y = b) by (now injection Hsome).
      clear Hsome.
      destruct (py_eq y (of_int 0)) eqn:Ey.
      * rewrite (Py_order2.py_zero_not_above 30 y ltac:(lia) Ey) in Hb.
        now subst b.
      * rewrite Hb. cbn [orb]. now destruct b.
    + intros [= <-].
      destruct (match dict_lookup gains "30d" with
                | Some v => v
                | None => VNum (of_int 0)
                end) as [y | t | ]; cbn [val_is_zero]; try reflexivity.
      now destruct (py_eq y (of_int 0)).
Qed.

Lemma inline_gain_test_agrees_witness :
  fst (check_gain_requirements
         [("7d", VNum (Py.PyFloat (Py.Zfloat 10)));
          ("30d", VNum (Py.PyInt 31))]%string) = true.
Proof.
  apply (inline_gain_test_agrees
           [("7d", VNum (Py.PyFloat (Py.Zfloat 10)));
            ("30d", VNum (Py.PyInt 31))]%string true).
  reflexivity.
Defined.

(** X11: [check_volume] never raises; a coin without a 'volume_24h' entry
    counts as volume 0 and passes only a minimum that is not positive, a
    volume that is a string or [None] does not pass, and a coin that passes
    at one minimum passes at every smaller one. *)
Theorem check_volume_threshold (coin_data : dict (pyval Py.pynum))
        (min_volume : Z) :
  (dict_lookup coin_data "volume_24h" = None ->
   check_volume coin_data min_volume = (min_volume <=? 0)) /\
  ((forall x, dict_lookup coin_data "volume_24h" <> Some (VNum x)) ->
   dict_lookup coin_data "volume_24h" <> None ->
   check_volume coin_data min_volume = false) /\
  (forall smaller : Z,
      check_volume coin_data min_volume = true -> smaller <= min_volume ->
      check_volume coin_data smaller = true).
Proof.
  unfold check_volume, dict_get. repeat split.
  - intros ->. reflexivity.
  - intros Hnum Hsome.
    destruct (dict_lookup coin_data "volume_24h") as [[x | s | ] | ];
      try reflexivity.
    + now destruct (Hnum x).
    + now destruct Hsome.
  - intros smaller.
    destruct (match dict_lookup coin_data "volume_24h" with
              | Some v => v
              | None => VNum (of_int 0)
              end) as [x | s | ]; cbn [val_ge]; try discriminate.
    intros Hpass Hle. exact (Py_order2.py_le_int_mono min_volume smaller x Hpass Hle).
Qed.

Lemma check_volume_threshold_witness :
  check_volume (num := Py.pynum) [("symbol", VStr "ABC")]%string 100000
  = (100000 <=? 0) /\
  check_volume (num := Py.pynum) [("volume_24h", VNone)]%string 100000 = false /\
  check_volume [("volume_24h", VNum (Py.PyFloat (Py.Zfloat 250000)))]%string 1000
  = true.
Proof.
  split; [ | split ].
  - apply (proj1 (check_volume_threshold [("symbol", VStr "ABC")]%string 100000)).
    reflexivity.
  - apply (proj1 (proj2 (check_volume_threshold
                           [("volume_24h", VNone)]%string 100000)));
      [ intros x | ]; discriminate.
  - apply (proj2 (proj2 (check_volume_threshold
                           [("volume_24h", VNum (Py.PyFloat (Py.Zfloat 250000)))]%string
                           100000)) 1000); [ reflexivity | lia ].
Defined.

(** ** Steps 7 to 9 of the scanner *)

Module Scanner_facts.
Import Py Py_domain Py_order Py2 Scanner.

Lemma div_half_even_nonneg (n d : Z) : 0 <= n -> 0 < d -> 0 <= div_half_even n d.
Proof.
  intros Hn Hd. unfold div_half_even.
  pose proof (Z.div_pos n d Hn Hd) as Hq.
  destruct (2 * (n mod d) ?= d); try lia.
  destruct (Z.even (n / d)); lia.
Qed.

(** [round(x, 1)] is positive only on a positive float. *)
Lemma fround1_pos (t : float) :
  SFltb fzero (fround1 t) = true -> SFltb fzero t = true.
Proof.
  destruct t as [s | s | | [ | ] m e]; try (intros H; exact H); try reflexivity.
  unfold fround1. destruct (0 <=? e) eqn:He; [ intros H; exact H | ].
  apply Z.leb_gt in He.
  pose proof (div_half_even_nonneg (10 * Z.pos m) (2 ^ (- e)) ltac:(lia)
                ltac:(apply Z.pow_pos_nonneg; lia)) as Hn.
  destruct (div_half_even (10 * Z.pos m) (2 ^ (- e))) as [ | n | n]; try lia.
  - intros H; exact H.
  - cbn [Z.eqb Z.opp Zexact]. unfold fdiv, SFdiv.
    destruct (SFdiv_core_binary prec emax (Z.pos n) 0 (Z.pos 10) 0)
      as [[mz ez] lz].
    pose proof (Float_facts.binary_round_aux_sign (xorb true false) mz ez lz) as Hs.
    destruct (binary_round_aux prec emax (xorb true false) mz ez lz)
      as [s | s | | s m' e']; cbn in Hs; subst; intros H; exact H.
Qed.

Lemma not_le_0_nonzero (b : float) :
  py_le (PyFloat b) (of_int 0) = false -> SFeqb b fzero = false.
Proof.
  cbn [py_le of_int number]. rewrite le_float_0. unfold SFleb, SFeqb.
  now destruct (SFcompare b fzero) as [[ | | ] | ].
Qed.

(** A gain above zero needs a base price above zero: the change from a NaN
    is a NaN. *)
Lemma gain_pos_base (b last : float) :
  py_le (PyFloat b) (of_int 0) = false ->
  py_lt (of_int 0) (PyFloat (fpct b last)) = true ->
  py_lt (of_int 0) (PyFloat b) = true.
Proof.
  cbn [py_le py_lt of_int number]. rewrite le_float_0, !lt_0_float.
  destruct b as [s | [ | ] | | [ | ] m e]; try discriminate; try reflexivity.
  intros _. destruct last as [s | s | | s m e]; discriminate.
Qed.

(** What [calculate] returns with a gain above zero. *)
Lemma positive_gain_result (prices : list float) (s g : pynum) :
  30 <= len prices ->
  calculate (floats prices) 30 = Ok (s, g) ->
  py_lt (of_int 0) g = true ->
  exists b last,
    py_index prices (-30) = Ok b /\ py_index prices (-1) = Ok last /\
    py_lt (of_int 0) (PyFloat b) = true /\
    py_lt (of_int 0) (PyFloat (fpct b last)) = true /\
    g = py_round1 (PyFloat (fpct b last)).
Proof.
  intros Hlen Hcalc Hg.
  destruct (py_index_defined prices (-30)) as (b & Hb & _); [ lia | ].
  destruct (py_index_defined prices (-1)) as (last & Hlast & _); [ lia | ].
  exists b, last.
  destruct (py_le (PyFloat b) (of_int 0)) eqn:Hb0.
  - exfalso.
    rewrite (@calculate_bad_base pynum number (floats prices) 30 (PyFloat b))
      in Hcalc; trivial; try lia.
    + injection Hcalc as <- <-. discriminate Hg.
    + unfold floats. rewrite len_map. lia.
    + now apply Gains.py_index_floats.
  - pose proof (not_le_0_nonzero b Hb0) as Hnz.
    rewrite (Py_curve.calculate_floats prices 30 b last) in Hcalc;
      trivial; try lia.
    assert (Hgain : g = PyFloat (fround1 (fpct b last))).
    { destruct (py_le (PyFloat (fpct b last)) (of_int 0)).
      - now injection Hcalc as _ <-.
      - destruct (Py_run.score_window_floats
                    (map (fpct b) (slice_from prices (- (30)))) (fpct b last) 30)
          as (s' & Hs').
        + split; [ lia | vm_compute; discriminate ].
        + rewrite len_map. apply (len_slice_from prices 30); lia.
        + rewrite Hs' in Hcalc. now injection Hcalc as _ <-. }
    subst g.
    assert (Htg : py_lt (of_int 0) (PyFloat (fpct b last)) = true).
    { cbn [py_lt of_int number] in *. rewrite lt_0_float in *.
      now apply fround1_pos. }
    repeat split; trivial.
    now apply (gain_pos_base b last).
Qed.

Lemma insert_by_score_perm {Other : Type} (c : coin Other) (l : list (coin Other)) :
  Permutation (c :: l) (insert_by_score c l).
Proof.
  induction l as [ | d l IH]; cbn [insert_by_score].
  - apply Permutation_refl.
  - destruct (score_lt c d).
    + eapply Permutation_trans; [ apply perm_swap | ].
      now apply perm_skip.
    + apply Permutation_refl.
Qed.

Lemma score_lt_asym {Other : Type} (c d : coin Other) :
  score_lt c d = true -> score_lt d c = false.
Proof.
  unfold score_lt.
  destruct (scored c) as [[s g] | ], (scored d) as [[t h] | ];
    try discriminate; try reflexivity.
  apply Py_order2.lt_asym.
Qed.

Lemma insert_by_score_sorted {Other : Type} (c : coin Other)
      (l : list (coin Other)) :
  Sorted (fun x y => score_lt x y = false) l ->
  Sorted (fun x y => score_lt x y = false) (insert_by_score c l).
Proof.
  induction l as [ | d l IH]; intros Hl; cbn [insert_by_score].
  - repeat constructor.
  - destruct (score_lt c d) eqn:Hcd.
    + inversion Hl as [ | ? ? Hl' Hhd]; subst.
      constructor; [ now apply IH | ].
      destruct l as [ | e l]; cbn [insert_by_score].
      * constructor. now apply score_lt_asym.
      * destruct (score_lt c e).
        -- inversion Hhd; subst. now constructor.
        -- constructor. now apply score_lt_asym.
    + constructor; [ exact Hl | now constructor ].
Qed.

End Scanner_facts.

(** X12: with the default minimum score 45, a coin whose gain is not a NaN
    passes the test of line 365 exactly when [get_score_category] puts its
    score and gain in "Perfect", "Excellent", "Good" or "Fair". *)
Theorem passes_default_iff_fair_or_better {Other : Type}
        (c : Scanner.coin Other) (s g : Py.pynum) :
  Scanner.scored c = Some (s, g) ->
  g <> Py.PyFloat S754_nan ->
  Scanner.passes Scanner.default_min_score c = true <->
  In (label (get_score_category s g)) Scanner.fair_or_better.
Proof.
  intros Hc Hg. unfold Scanner.passes, Scanner.default_min_score. rewrite Hc.
  unfold get_score_category.
  change (py_le g (of_int 0)) with (Py.le g (Py.PyInt 0)).
  rewrite (Py_order2.not_nan_total g Hg).
  change (Py.lt (Py.PyInt 0) g) with (py_lt (of_int 0) g).
  destruct (py_lt (of_int 0) g); cbn [negb].
  - destruct (py_le (of_int 90) s) eqn:H90.
    { rewrite (Py_order2.py_le_int_mono 90 45 s H90 ltac:(lia)).
      split; [ intros _; cbn; tauto | reflexivity ]. }
    destruct (py_le (of_int 75) s) eqn:H75.
    { rewrite (Py_order2.py_le_int_mono 75 45 s H75 ltac:(lia)).
      split; [ intros _; cbn; tauto | reflexivity ]. }
    destruct (py_le (of_int 60) s) eqn:H60.
    { rewrite (Py_order2.py_le_int_mono 60 45 s H60 ltac:(lia)).
      split; [ intros _; cbn; tauto | reflexivity ]. }
    destruct (py_le (of_int 45) s) eqn:H45.
    { split; [ intros _; cbn; tauto | reflexivity ]. }
    destruct (py_le (of_int 20) s);
      (split; [ discriminate | cbn; intuition discriminate ]).
  - rewrite andb_false_r. split; [ discriminate | cbn; intuition discriminate ].
Qed.

Lemma passes_default_iff_fair_or_better_witness :
  Scanner.passes
    Scanner.default_min_score
    {| Scanner.symbol := "ABC"; Scanner.cg_id := "abc";
       Scanner.scored := Some (Py.PyFloat (Py.decimal 711 1), Py.PyFloat (Py.Zfloat 300));
       Scanner.other := tt |} = true <->
  In (label (get_score_category (Py.PyFloat (Py.decimal 711 1))
                                (Py.PyFloat (Py.Zfloat 300))))
     Scanner.fair_or_better.
Proof.
  apply passes_default_iff_fair_or_better.
  - reflexivity.
  - discriminate.
Defined.

(** X13: a coin that step 7 scores from a price list and that then passes
    line 365, whatever the minimum score, comes from none of the degenerate
    returns of [calculate]: the list has at least 30 prices, the first price
    of the window and the unrounded gain of the window are above zero, the
    stored gain is that gain rounded to one decimal, and the score is
    between the minimum and 100. *)
Theorem passing_coin_has_positive_window_gain {Other : Type}
        (prices : list Py.float) (c c' : Scanner.coin Other) (min_score : Z) :
  Scanner.scored c = None ->
  Scanner.score_coin (Some prices) c = Ok c' ->
  Scanner.passes min_score c' = true ->
  30 <= len prices /\
  exists b last s,
    py_index prices (-30) = Ok b /\ py_index prices (-1) = Ok last /\
    py_lt (of_int 0) (Py.PyFloat b) = true /\
    py_lt (of_int 0) (Py.PyFloat (Py_domain.fpct b last)) = true /\
    Scanner.scored c'
    = Some (s, py_round1 (Py.PyFloat (Py_domain.fpct b last))) /\
    py_le (of_int min_score) s = true /\ py_le s (of_int 100) = true.
Proof.
  intros Hnone Hscore Hpass. unfold Scanner.score_coin in Hscore.
  destruct (negb (len prices =? 0) && (30 <=? len prices)) eqn:Hlen.
  - apply andb_prop in Hlen. destruct Hlen as [_ Hlen]. apply Z.leb_le in Hlen.
    split; [ exact Hlen | ].
    destruct (calculate (Py.floats prices) 30) as [[s g] | e] eqn:Hcalc;
      [ | discriminate Hscore ].
    cbn [bind] in Hscore. injection Hscore as <-.
    unfold Scanner.passes in Hpass. cbn [Scanner.scored] in Hpass.
    apply andb_prop in Hpass. destruct Hpass as [Hmin Hg].
    destruct (Scanner_facts.positive_gain_result prices s g Hlen Hcalc Hg)
      as (b & last & Hb & Hlast & Hb0 & Htg & ->).
    exists b, last, s. cbn [Scanner.scored]. repeat split; trivial.
    destruct (calculate_score_shape _ _ _ _ Hcalc) as [-> | (r & ->)].
    + reflexivity.
    + apply Py_total.clamp_in_range.
  - injection Hscore as <-. unfold Scanner.passes in Hpass.
    rewrite Hnone in Hpass. discriminate Hpass.
Qed.

Lemma passing_coin_has_positive_window_gain_witness :
  30 <= len (Py.of_ints scenario_linear) /\
  exists b last s,
    py_index (Py.of_ints scenario_linear) (-30) = Ok b /\
    py_index (Py.of_ints scenario_linear) (-1) = Ok last /\
    py_lt (of_int 0) (Py.PyFloat b) = true /\
    py_lt (of_int 0) (Py.PyFloat (Py_domain.fpct b last)) = true /\
    Scanner.scored
      {| Scanner.symbol := "ABC"; Scanner.cg_id := "abc";
         Scanner.scored := Some (Py.PyInt 100, Py.PyFloat (Py.Zfloat 58));
         Scanner.other := tt |}
    = Some (s, py_round1 (Py.PyFloat (Py_domain.fpct b last))) /\
    py_le (of_int 45) s = true /\ py_le s (of_int 100) = true.
Proof.
  apply (passing_coin_has_positive_window_gain
           (Py.of_ints scenario_linear)
           {| Scanner.symbol := "ABC"; Scanner.cg_id := "abc";
              Scanner.scored := None; Scanner.other := tt |}).
  - reflexivity.
  - vm_compute. reflexivity.
  - vm_compute. reflexivity.
Defined.

(** X14: the final results of step 9 are the processed coins that pass
    line 365, each as often as it passed, in an order in which no coin is
    directly followed by a coin with a larger score. *)
Theorem final_results_sorted {Other : Type} (min_score : Z)
        (processed : list (Scanner.coin Other)) :
  Permutation (Scanner.uniformity_passed min_score processed)
              (Scanner.final_results
                 (Scanner.uniformity_passed min_score processed)) /\
  (forall c, In c (Scanner.final_results
                     (Scanner.uniformity_passed min_score processed)) <->
             In c processed /\ Scanner.passes min_score c = true) /\
  Sorted (fun c d => Scanner.score_lt c d = false)
         (Scanner.final_results
            (Scanner.uniformity_passed min_score processed)).
Proof.
  assert (Hperm : forall l : list (Scanner.coin Other),
             Permutation l (Scanner.final_results l)).
  { induction l as [ | c l IH]; cbn [Scanner.final_results fold_right].
    - apply Permutation_refl.
    - eapply Permutation_trans; [ apply perm_skip, IH | ].
      apply Scanner_facts.insert_by_score_perm. }
  split; [ apply Hperm | split ].
  - intros c. unfold Scanner.uniformity_passed at 1. rewrite <- filter_In.
    split; intros Hin.
    + eapply Permutation_in; [ apply Permutation_sym, Hperm | exact Hin ].
    + eapply Permutation_in; [ apply Hperm | exact Hin ].
  - generalize (Scanner.uniformity_passed min_score processed). intros l.
    induction l as [ | c l IH]; cbn [Scanner.final_results fold_right].
    + constructor.
    + now apply Scanner_facts.insert_by_score_sorted.
Qed.

(** X15: lowering [uniformity_min_score] never removes a coin: a coin that
    passes line 365 at one minimum passes at every smaller one. *)
Theorem passes_monotone {Other : Type} (c : Scanner.coin Other)
        (min_score smaller : Z) :
  Scanner.passes min_score c = true -> smaller <= min_score ->
  Scanner.passes smaller c = true.
Proof.
  unfold Scanner.passes. destruct (Scanner.scored c) as [[s g] | ];
    [ | discriminate ].
  intros Hpass Hle. apply andb_prop in Hpass. destruct Hpass as [Hmin Hg].
  now rewrite (Py_order2.py_le_int_mono min_score smaller s Hmin Hle), Hg.
Qed.

Lemma passes_monotone_witness :
  Scanner.passes 30
    {| Scanner.symbol := "ABC"; Scanner.cg_id := "abc";
       Scanner.scored := Some (Py.PyFloat (Py.decimal 711 1), Py.PyFloat (Py.Zfloat 300));
       Scanner.other := tt |} = true.
Proof.
  apply (passes_monotone _ 45 30); [ reflexivity | lia ].
Defined.
